(** * Agent-based SLIR model of powdery mildew spread among grapevines

    A shallow embedding of the notebook [sir.ipynb]: the four compartments,
    the per-agent record, the intercropping initialiser, the transition rules,
    [update_agent], and the [setup]/[step] methods of [VineInfectionModel],
    together with the part of AgentPy's driver ([sim_setup], [sim_step], the
    run loop) that calls them.

    Conventions of the embedding.
    - Python [int] is [Z]; Python [float] is [Q], with arithmetic taken
      exactly (CPython rounds every operation to the nearest double).  The
      [OverflowError] of an integer or an integer quotient beyond the range
      of a float is kept.
    - An exception is a value of [exn]; a computation that may raise returns
      a [result].
    - The pseudo-random generators are streams read through a cursor: the
      k-th value handed out by [random.random()], by the standard normal
      deviate inside [random.gauss], and by the model's own generator used
      by [AgentList.random].
    - The agents of the model are a list in creation order; an agent mutated
      in place is a list update at its index. *)

From Stdlib Require Import ZArith QArith Qabs Lia.
From stdpp Require Import base option list.

Local Open Scope Z_scope.

(** ** Compartments *)

Inductive AgentState : Type :=
  | SUSCEPTIBLE
  | LATENT
  | INFECTED
  | RECOVERED.

(** The integer each compartment has in the class [AgentState]. *)
Definition AgentState_value (s : AgentState) : Z :=
  match s with
  | SUSCEPTIBLE => 0
  | LATENT => 1
  | INFECTED => 2
  | RECOVERED => 3
  end.

(** [s1 == s2] on compartments is the comparison of their integers. *)
Definition state_eqb (s1 s2 : AgentState) : bool :=
  AgentState_value s1 =? AgentState_value s2.

(** ** Exceptions and results *)

Inductive exn : Type :=
  | ZeroDivisionError
  | OverflowError
  | ValueError
  | AttributeError
  | IndexError.

Inductive result (A : Type) : Type :=
  | Ok (a : A)
  | Raise (e : exn).
Arguments Ok {A} a.
Arguments Raise {A} e.

(** ** Settings

    The module-level constants of the notebook and the entries of the
    [parameters] dictionary.  [default_settings] holds the values written in
    the notebook. *)

Record Settings : Type := mkSettings {
  intercropping_distance : Z;
  intercropping_row_count : Z;
  default_infectivity_offset : Z;
  resistant_infectivity_offset : Z;
  default_latency_duration : Q;
  default_infectivity : Z;
  removal_threshold : Z;
  recovery_rate : Q;
  p_size : Z;
  p_initial_infection_count : Z;
  p_steps : Z
}.

Definition default_settings : Settings := {|
  intercropping_distance := 5;
  intercropping_row_count := 5;
  default_infectivity_offset := 10;
  resistant_infectivity_offset := 180;
  default_latency_duration := 8 # 1;
  default_infectivity := 10;
  removal_threshold := 10;
  recovery_rate := 1 # 1000;
  p_size := 100;
  p_initial_infection_count := 2;
  p_steps := 200
|}.

(** ** Agents

    The attributes the notebook attaches to an agent.  [state_next] is not
    created by the initialiser: it is absent ([None]) until the first
    [update_agent]. *)

Record Agent : Type := mkAgent {
  state : AgentState;
  state_next : option AgentState;
  initial_state : AgentState;
  infectivity_offset : Z;
  latency_counter : Z;
  latency_duration : Q
}.

Definition set_state (s : AgentState) (a : Agent) : Agent :=
  mkAgent s (state_next a) (initial_state a) (infectivity_offset a)
          (latency_counter a) (latency_duration a).

Definition set_state_next (s : AgentState) (a : Agent) : Agent :=
  mkAgent (state a) (Some s) (initial_state a) (infectivity_offset a)
          (latency_counter a) (latency_duration a).

Definition set_initial_state (s : AgentState) (a : Agent) : Agent :=
  mkAgent (state a) (state_next a) s (infectivity_offset a)
          (latency_counter a) (latency_duration a).

Definition set_infectivity_offset (o : Z) (a : Agent) : Agent :=
  mkAgent (state a) (state_next a) (initial_state a) o
          (latency_counter a) (latency_duration a).

Definition set_latency_counter (c : Z) (a : Agent) : Agent :=
  mkAgent (state a) (state_next a) (initial_state a) (infectivity_offset a)
          c (latency_duration a).

(** ** Randomness

    [random.random()] returns a double [k / 2^53] with [0 <= k < 2^53], so
    [0.0] is a possible value and [1.0] is not.  [random.gauss mu sigma]
    returns [mu + z * sigma] for a standard normal deviate [z]. *)

Record Random : Type := mkRandom {
  uniform53 : nat -> N;
  normal : nat -> Q;
  choice : nat -> nat;
  uniform_calls : nat;
  normal_calls : nat;
  choice_calls : nat
}.

(** A small state-and-exception monad over the generators. *)
Definition M (A : Type) : Type := Random -> result (A * Random).

Definition ret {A} (a : A) : M A := fun r => Ok (a, r).

Definition raise {A} (e : exn) : M A := fun _ => Raise e.

Definition bind {A B} (c : M A) (k : A -> M B) : M B :=
  fun r =>
    match c r with
    | Ok (a, r') => k a r'
    | Raise e => Raise e
    end.

Notation "'let*' x ':=' c 'in' k" := (bind c (fun x => k))
  (at level 10, x name, c at level 100, k at level 200).

Definition two53 : N := 9007199254740992.

Definition unit_interval (k : N) : Q :=
  Qmake (Z.of_N (k mod two53)) 9007199254740992.

(** The generators after one more value has been taken from a stream. *)
Definition tick_uniform (r : Random) : Random :=
  mkRandom (uniform53 r) (normal r) (choice r)
           (S (uniform_calls r)) (normal_calls r) (choice_calls r).

Definition tick_normal (r : Random) : Random :=
  mkRandom (uniform53 r) (normal r) (choice r)
           (uniform_calls r) (S (normal_calls r)) (choice_calls r).

Definition tick_choice (r : Random) : Random :=
  mkRandom (uniform53 r) (normal r) (choice r)
           (uniform_calls r) (normal_calls r) (S (choice_calls r)).

(** The value the next call of [random.random()] returns. *)
Definition next_uniform (r : Random) : Q :=
  unit_interval (uniform53 r (uniform_calls r)).

Definition random_random : M Q :=
  fun r => Ok (next_uniform r, tick_uniform r).

(** ** Python arithmetic that can raise *)

(** A number is too large for a float when it would round to [2^1024] or
    beyond, that is when its magnitude is at least [2^1024 - 2^970], half an
    ulp above the largest double.  Converting such an integer to a float, or
    dividing two integers with such a quotient, raises [OverflowError]. *)
Definition overflow_threshold : Q :=
  inject_Z (2 ^ 1024 - 2 ^ 970).

Definition overflows (q : Q) : bool :=
  Qle_bool overflow_threshold (Qabs q).

(** [mu + z * sigma]: [z] is a float, so an integer [sigma] or [mu] is
    converted to a float, which raises when it is too large. *)
Definition random_gauss (mu sigma : Q) : M Q :=
  fun r =>
    if overflows sigma || overflows mu then Raise OverflowError
    else Ok ((mu + normal r (normal_calls r) * sigma)%Q, tick_normal r).

(** [a / b] on integers: true division.  The quotient is kept exact where
    CPython rounds it to the nearest double. *)
Definition true_div (a b : Z) : M Q :=
  if b =? 0 then raise ZeroDivisionError
  else if overflows (inject_Z a / inject_Z b) then raise OverflowError
  else ret (inject_Z a / inject_Z b)%Q.

(** [a % b] on integers: the result has the sign of [b], as [Z.modulo]. *)
Definition py_mod (a b : Z) : M Z :=
  if b =? 0 then raise ZeroDivisionError
  else ret (a mod b).

(** ** Intercropping *)

Definition is_intercropped_resistant_cultivar
    (cfg : Settings) (position : Z * Z) : M bool :=
  let x_coordinate := fst position in
  let y_coordinate := snd position in
  let* m := py_mod x_coordinate
         (intercropping_distance cfg + intercropping_row_count cfg) in
  ret (intercropping_distance cfg <=? m).

(** ** Transition rules *)

Definition is_infected (a : Agent) : bool :=
  state_eqb (state a) INFECTED.

(** [len(neighbors.select(neighbors.state == AgentState.INFECTED))] *)
Definition infected_count (neighbors : list Agent) : Z :=
  Z.of_nat (length (List.filter is_infected neighbors)).

Definition s_2_l (cfg : Settings) (vine : Agent) (neighbors : list Agent)
    : M bool :=
  let neighborhood_infectivity :=
    default_infectivity cfg * infected_count neighbors in
  let* prob := random_random in
  let* q := true_div neighborhood_infectivity
         (neighborhood_infectivity + infectivity_offset vine) in
  ret (Qle_bool prob q).

Definition l_2_i (vine : Agent) (neighbors : list Agent) : bool :=
  Qle_bool (latency_duration vine) (inject_Z (latency_counter vine)).

Definition self_recovery (cfg : Settings) (vine : Agent)
    (neighbors : list Agent) : M bool :=
  let* prob := random_random in
  ret (Qle_bool prob (recovery_rate cfg)).

(** [model_generation > 0 and model_generation % removal_threshold == 0]:
    the remainder is only taken when the first test holds. *)
Definition manual_removal (cfg : Settings) (model_generation : Z)
    (vine : Agent) (neighbors : list Agent) : M bool :=
  if 0 <? model_generation then
    let* m := py_mod model_generation (removal_threshold cfg) in
    ret (m =? 0)
  else ret false.

(** ** The agent as a state machine

    Three consecutive [if] statements on [vine.state]; none of them writes
    [vine.state], so at most one of them runs. *)

Definition update_healthy (cfg : Settings) (vine : Agent)
    (neighbors : list Agent) : M Agent :=
  if state_eqb (state vine) SUSCEPTIBLE
     || state_eqb (state vine) RECOVERED then
    let* fired := s_2_l cfg vine neighbors in
    ret (set_state_next (if fired then LATENT else state vine) vine)
  else ret vine.

Definition update_latent (vine : Agent) (neighbors : list Agent) : M Agent :=
  if state_eqb (state vine) LATENT then
    let vine := set_latency_counter (latency_counter vine + 1) vine in
    ret (set_state_next
           (if l_2_i vine neighbors then INFECTED else state vine) vine)
  else ret vine.

Definition update_infected (cfg : Settings) (model_generation : Z)
    (vine : Agent) (neighbors : list Agent) : M Agent :=
  if state_eqb (state vine) INFECTED then
    let vine := set_latency_counter 0 vine in
    let* recovered := self_recovery cfg vine neighbors in
    if recovered then
      ret (set_infectivity_offset (resistant_infectivity_offset cfg)
             (set_initial_state RECOVERED (set_state_next RECOVERED vine)))
    else
      let* removed := manual_removal cfg model_generation vine neighbors in
      if removed then ret (set_state_next (initial_state vine) vine)
      else ret (set_state_next (state vine) vine)
  else ret vine.

Definition update_agent (cfg : Settings) (model_generation : Z)
    (vine : Agent) (neighbors : list Agent) : M Agent :=
  let* vine := update_healthy cfg vine neighbors in
  let* vine := update_latent vine neighbors in
  update_infected cfg model_generation vine neighbors.
Arguments update_agent : simpl never.

(** ** The grid

    [ap.Grid(self, (size, size))] with [add_agents(vines)]: the agents are
    placed in creation order on the positions [(0,0), (0,1), ...] (row-major),
    so agent [i] stands at [(i / size, i mod size)].  [neighbors] is the Moore
    neighbourhood without wrap-around: the agents on the up to eight adjacent
    positions that lie on the grid.  [ap.Grid] refuses a shape with a
    non-positive side (see [setup]). *)

Definition grid_position (size : Z) (i : nat) : Z * Z :=
  (Z.of_nat i / size, Z.of_nat i mod size).

Definition grid_index (size : Z) (position : Z * Z) : nat :=
  Z.to_nat (fst position * size + snd position).

Definition on_grid (size : Z) (position : Z * Z) : bool :=
  (0 <=? fst position) && (fst position <? size)
  && (0 <=? snd position) && (snd position <? size).

Definition grid_neighbors (size : Z) (i : nat) : list nat :=
  let x := fst (grid_position size i) in
  let y := snd (grid_position size i) in
  List.map (grid_index size)
    (List.filter (on_grid size)
       [(x - 1, y - 1); (x - 1, y); (x - 1, y + 1);
        (x, y - 1); (x, y + 1);
        (x + 1, y - 1); (x + 1, y); (x + 1, y + 1)]).

(** The agent objects found on the neighbouring positions, as they are in
    the list of agents at the moment of the call. *)
Definition neighbors (size : Z) (agents : list Agent) (i : nat) : list Agent :=
  omap (fun j => agents !! j) (grid_neighbors size i).
Arguments neighbors : simpl never.

(** ** The model and the globals it uses *)

Record Simulation : Type := mkSimulation {
  t : Z;
  running : bool;
  agents : list Agent;
  model_generation : Z;
  random : Random
}.

(** ** [VineInfectionModel.step] *)

(** First loop of [step]: every agent in turn is updated in place, its
    neighbours being read from the agents as they are at that moment. *)
Fixpoint compute_loop (cfg : Settings) (generation : Z) (ids : list nat)
    (vines : list Agent) : M (list Agent) :=
  match ids with
  | [] => ret vines
  | i :: ids' =>
      match vines !! i with
      | None => raise IndexError
      | Some vine =>
          let neighboring_vines := neighbors (p_size cfg) vines i in
          let* vine' := update_agent cfg generation vine neighboring_vines in
          compute_loop cfg generation ids' (<[i := vine']> vines)
      end
  end.

(** [vine.state = vine.state_next]; reading an attribute that was never set
    raises. *)
Definition commit (vine : Agent) : result Agent :=
  match state_next vine with
  | Some s => Ok (set_state s vine)
  | None => Raise AttributeError
  end.

(** Second loop of [step]. *)
Fixpoint commit_loop (vines : list Agent) : result (list Agent) :=
  match vines with
  | [] => Ok []
  | vine :: rest =>
      match commit vine with
      | Raise e => Raise e
      | Ok vine' =>
          match commit_loop rest with
          | Raise e => Raise e
          | Ok rest' => Ok (vine' :: rest')
          end
      end
  end.

(** [len(self.agents.select(self.agents.state == s))] *)
Definition count_state (s : AgentState) (vines : list Agent) : Z :=
  Z.of_nat (length (List.filter (fun a => state_eqb (state a) s) vines)).

Definition step (cfg : Settings) (w : Simulation) : result Simulation :=
  match compute_loop cfg (model_generation w)
          (seq 0 (length (agents w))) (agents w) (random w) with
  | Raise e => Raise e
  | Ok (staged, rnd) =>
      match commit_loop staged with
      | Raise e => Raise e
      | Ok committed =>
          let latent_agent_count := count_state LATENT committed in
          let infected_agent_count := count_state INFECTED committed in
          Ok (mkSimulation (t w)
                (if latent_agent_count + infected_agent_count =? 0
                 then false else running w)
                committed (t w) rnd)
      end
  end.

(** ** [VineInfectionModel.setup] *)

Definition new_agent (cfg : Settings) (is_resistant_cultivar : bool)
    (duration : Q) : Agent :=
  let initial := if is_resistant_cultivar then RECOVERED else SUSCEPTIBLE in
  mkAgent initial None initial
          (if is_resistant_cultivar then resistant_infectivity_offset cfg
           else default_infectivity_offset cfg)
          0 duration.

(** The loop of [set_up_agent_variable_attributes], with [grid.agents]
    taken in creation order. *)
Fixpoint set_up_loop (cfg : Settings) (ids : list nat) : M (list Agent) :=
  match ids with
  | [] => ret []
  | i :: ids' =>
      let position := grid_position (p_size cfg) i in
      let* is_resistant_cultivar :=
        is_intercropped_resistant_cultivar cfg position in
      let* duration := random_gauss (default_latency_duration cfg) (2 # 1) in
      let* rest := set_up_loop cfg ids' in
      ret (new_agent cfg is_resistant_cultivar duration :: rest)
  end.

Definition set_up_agent_variable_attributes (cfg : Settings) (n : nat)
    : M (list Agent) :=
  set_up_loop cfg (seq 0 n).

(** [AgentList.random(n)] draws with the model's generator:
    [random.choice] for [n = 1] (which raises [IndexError] on an empty list),
    [random.sample] otherwise (which raises [ValueError] unless
    [0 <= n <= len]).  The sample picks without replacement. *)
Definition next_choice (bound : nat) : M nat :=
  fun r => Ok ((choice r (choice_calls r) mod bound)%nat, tick_choice r).

Fixpoint sample (population : list nat) (k : nat) : M (list nat) :=
  match k with
  | O => ret []
  | S k' =>
      let* j := next_choice (length population) in
      match population !! j with
      | None => raise ValueError
      | Some x =>
          let* rest := sample (delete j population) k' in
          ret (x :: rest)
      end
  end.

Definition AgentList_random (n : Z) (population : list nat) : M (list nat) :=
  if n =? 1 then
    match population with
    | [] => raise IndexError
    | _ => sample population 1
    end
  else if (n <? 0) || (Z.of_nat (length population) <? n) then
    raise ValueError
  else sample population (Z.to_nat n).

(** [initial_infected.state = AgentState.LATENT] *)
Definition seed (initial_infected : list nat) (vines : list Agent)
    : list Agent :=
  foldl (fun vs i => alter (set_state LATENT) i vs) vines initial_infected.

(** The agents are created first; [ap.Grid(self, (size, size))] then raises
    [ValueError] when [size] is not positive, before any attribute is set. *)
Definition setup (cfg : Settings) : M (list Agent) :=
  let n := Z.to_nat (p_size cfg ^ 2) in
  if p_size cfg <=? 0 then raise ValueError
  else
    let* vines := set_up_agent_variable_attributes cfg n in
    let* initial_infected :=
      AgentList_random (p_initial_infection_count cfg) (seq 0 n) in
    ret (seed initial_infected vines).

(** ** AgentPy's driver

    [sim_setup] prepares time-step 0, [sim_step] advances [t] and calls
    [step], and the run loop repeats [sim_step] while [running] holds.
    [model_generation] starts at the value the notebook gives it. *)

Definition sim_setup (cfg : Settings) (rnd : Random) : result Simulation :=
  match setup cfg rnd with
  | Raise e => Raise e
  | Ok (vines, rnd') =>
      Ok (mkSimulation 0 (negb (p_steps cfg <=? 0)) vines 0 rnd')
  end.

Definition sim_step (cfg : Settings) (w : Simulation) : result Simulation :=
  match step cfg (mkSimulation (t w + 1) (running w) (agents w)
                    (model_generation w) (random w)) with
  | Raise e => Raise e
  | Ok w' =>
      Ok (mkSimulation (t w')
            (if p_steps cfg <=? t w' then false else running w')
            (agents w') (model_generation w') (random w'))
  end.

(** [while self.running: self.sim_step()], with the number of iterations
    bounded by [fuel]. *)
Fixpoint run_loop (cfg : Settings) (fuel : nat) (w : Simulation)
    : result Simulation :=
  match fuel with
  | O => Ok w
  | S fuel' =>
      if running w then
        match sim_step cfg w with
        | Raise e => Raise e
        | Ok w' => run_loop cfg fuel' w'
        end
      else Ok w
  end.

Definition run (cfg : Settings) (rnd : Random) : result Simulation :=
  match sim_setup cfg rnd with
  | Raise e => Raise e
  | Ok w => run_loop cfg (Z.to_nat (p_steps cfg)) w
  end.

(** ** Reference semantics of the computation phase

    The computation phase as the specification words it: every agent's next
    state is computed from a frozen copy of the pre-step agents (the agent
    itself and its neighbours are both read from [snapshot]), and only the
    result is written to the agents being staged. *)
Fixpoint snapshot_loop (cfg : Settings) (generation : Z)
    (snapshot : list Agent) (ids : list nat) (vines : list Agent)
    : M (list Agent) :=
  match ids with
  | [] => ret vines
  | i :: ids' =>
      match snapshot !! i with
      | None => raise IndexError
      | Some vine =>
          let neighboring_vines := neighbors (p_size cfg) snapshot i in
          let* vine' := update_agent cfg generation vine neighboring_vines in
          snapshot_loop cfg generation snapshot ids' (<[i := vine']> vines)
      end
  end.

(** ** Reachable simulations

    The states of the world a run goes through: the one [sim_setup] builds,
    and the one after each [sim_step] the run loop takes. *)
Inductive reachable (cfg : Settings) : Simulation -> Prop :=
  | reachable_setup rnd w :
      sim_setup cfg rnd = Ok w -> reachable cfg w
  | reachable_step w w' :
      reachable cfg w -> running w = true -> sim_step cfg w = Ok w' ->
      reachable cfg w'.

(** ** Concrete settings, generators and agents for the examples *)

(** The notebook's constants with other entries in [parameters]. *)
Definition with_params (size count steps : Z) : Settings :=
  mkSettings 5 5 10 180 (8 # 1) 10 10 (1 # 1000) size count steps.

(** Generators whose every [random.random()] is [k / 2^53], whose every
    normal deviate is [z], and whose sampling always picks the first of the
    remaining candidates. *)
Definition constant_draws (k : N) (z : Q) : Random :=
  mkRandom (fun _ => k) (fun _ => z) (fun _ => 0%nat) 0 0 0.

(** A vine of the default cultivar in compartment [s]. *)
Definition default_vine (s : AgentState) (counter : Z) : Agent :=
  mkAgent s None SUSCEPTIBLE 10 counter (8 # 1).

(** The configurations the specification calls invalid. *)
Definition invalid_configuration (cfg : Settings) : Prop :=
  p_size cfg <= 0
  \/ p_size cfg ^ 2 < p_initial_infection_count cfg
  \/ (recovery_rate cfg < 0)%Q
  \/ (default_latency_duration cfg < 0)%Q.

(** The world a driver call returns, for calls that do not raise. *)
Definition world_of (x : result Simulation) : Simulation :=
  match x with
  | Ok w => w
  | Raise _ => mkSimulation 0 false [] 0 (constant_draws 0 0)
  end.

(** A single vine, seeded Latent, whose Normal deviate [-3.5] gives the
    latency duration [8 - 7 = 1]; every uniform draw is [0.5]. *)
Definition short_latency_settings : Settings := with_params 1 1 200.

Definition short_latency_draws : Random :=
  constant_draws 4503599627370496 (-7 # 2).

Definition short_latency_world : Simulation :=
  world_of (sim_setup short_latency_settings short_latency_draws).

Definition short_latency_world_1 : Simulation :=
  world_of (sim_step short_latency_settings short_latency_world).

(** A single vine, seeded Latent, with the mean latency duration 8 (normal
    deviate 0); every uniform draw is [0.5]. *)
Definition lone_vine_settings : Settings := with_params 1 1 200.

Definition lone_vine_draws : Random := constant_draws 4503599627370496 0.

Definition lone_vine_world : Simulation :=
  world_of (sim_setup lone_vine_settings lone_vine_draws).

Definition lone_vine_world_1 : Simulation :=
  world_of (sim_step lone_vine_settings lone_vine_world).

Definition lone_vine_world_8 : Simulation :=
  world_of (run_loop lone_vine_settings 8 lone_vine_world).

(** A 2 x 2 vineyard with one seeded vine, and the 20 x 20 vineyard of the
    specification's banding example, both with the notebook's constants. *)
Definition small_grid_settings : Settings := with_params 2 1 200.

Definition small_grid_world : Simulation :=
  world_of (sim_setup small_grid_settings lone_vine_draws).

Definition sample_grid_settings : Settings := with_params 20 2 200.

Definition sample_grid_world : Simulation :=
  world_of (sim_setup sample_grid_settings lone_vine_draws).

(** A single vine and no seeding, with every [random.random()] returning
    0.0; and a configuration with a negative recovery rate and a negative
    mean latency duration. *)
Definition no_seed_settings : Settings := with_params 1 0 200.

Definition no_seed_world : Simulation :=
  world_of (sim_setup no_seed_settings (constant_draws 0 0)).

Definition no_seed_world_1 : Simulation :=
  world_of (sim_step no_seed_settings no_seed_world).

Definition negative_rate_settings : Settings :=
  mkSettings 5 5 10 180 (-8 # 1) 10 10 (-1 # 1000) 1 1 200.

(** A grid without cells, and a grid of one cell asked to seed five vines. *)
Definition empty_grid_settings : Settings := with_params 0 1 200.
Definition crowded_settings : Settings := with_params 1 5 200.

(** ** Measures over the agents *)

(** The number of calls of [random.random()] one computation phase makes:
    [s_2_l] and [self_recovery] make one each, a Latent vine makes none. *)
Definition draws_needed (vines : list Agent) : nat :=
  length (List.filter (fun vine => negb (state_eqb (state vine) LATENT)) vines).

(** A vine in one of the two healthy compartments. *)
Definition healthy (s : AgentState) : Prop :=
  s = SUSCEPTIBLE \/ s = RECOVERED.

(** The lone seeded vine after ten steps (Infected since the eighth) and
    after the eleventh; and the same vineyard when every
    [random.random()] returns 0.0, so that [self_recovery] fires as soon as
    the vine is Infected. *)
Definition lone_vine_world_10 : Simulation :=
  world_of (run_loop lone_vine_settings 10 lone_vine_world).

Definition lone_vine_world_11 : Simulation :=
  world_of (sim_step lone_vine_settings lone_vine_world_10).

Definition recovering_world : Simulation :=
  world_of (sim_setup lone_vine_settings (constant_draws 0 0)).

Definition recovering_world_end : Simulation :=
  world_of (run_loop lone_vine_settings 20 recovering_world).

(** Settings at the edges of their ranges: a recovery rate of 1, an
    intercropping period of 0, no resistant row, and no default row. *)
Definition certain_recovery_settings : Settings :=
  mkSettings 5 5 10 180 (8 # 1) 10 10 (1 # 1) 1 1 200.

Definition zero_period_settings : Settings :=
  mkSettings 5 (-5) 10 180 (8 # 1) 10 10 (1 # 1000) 1 1 200.

Definition no_resistant_row_settings : Settings :=
  mkSettings 5 0 10 180 (8 # 1) 10 10 (1 # 1000) 2 1 200.

Definition no_default_row_settings : Settings :=
  mkSettings 0 5 10 180 (8 # 1) 10 10 (1 # 1000) 2 1 200.

(** A vine of the resistant cultivar, a vine whose offset is 0, and
    generators whose every [random.random()] returns [2^48 / 2^53 = 1/32]. *)
Definition resistant_vine (s : AgentState) (counter : Z) : Agent :=
  mkAgent s None RECOVERED 180 counter (8 # 1).

Definition zero_offset_vine : Agent :=
  mkAgent SUSCEPTIBLE None SUSCEPTIBLE 0 0 (8 # 1).

(** An infectivity and an offset whose quotient [2^1025 / 1] is beyond the
    range of a float. *)
Definition huge_infectivity_settings : Settings :=
  mkSettings 5 5 10 180 (8 # 1) (2 ^ 1025) 10 (1 # 1000) 1 1 200.

Definition negative_offset_vine : Agent :=
  mkAgent SUSCEPTIBLE None SUSCEPTIBLE (1 - 2 ^ 1025) 0 (8 # 1).

(** A one-vine world whose vine has offset 0 and no [state_next]. *)
Definition zero_offset_world : Simulation :=
  mkSimulation 0 true [zero_offset_vine] 0 lone_vine_draws.

Definition small_draws : Random := constant_draws 281474976710656 0.

(** The lone seeded vine after seven steps, and vineyards set up with the
    settings at the edges of the intercropping pattern. *)
Definition lone_vine_world_7 : Simulation :=
  world_of (run_loop lone_vine_settings 7 lone_vine_world).

Definition no_resistant_row_world : Simulation :=
  world_of (sim_setup no_resistant_row_settings lone_vine_draws).

Definition no_default_row_world : Simulation :=
  world_of (sim_setup no_default_row_settings lone_vine_draws).

(** A 2 x 2 vineyard whose seeded vine has latency duration 1 and whose
    every [random.random()] returns 1/32: the seeded vine is Infected after
    the first step and its three neighbours are Latent after the second. *)
Definition outbreak_draws : Random :=
  constant_draws 281474976710656 (-7 # 2).

Definition outbreak_world_1 : Simulation :=
  world_of (run_loop small_grid_settings 1
              (world_of (sim_setup small_grid_settings outbreak_draws))).

Definition outbreak_world_2 : Simulation :=
  world_of (sim_step small_grid_settings outbreak_world_1).

(** * Properties of the arithmetic *)

Lemma Qle_div_inject_Z a b c d :
  0 < b -> 0 < d ->
  (inject_Z a / inject_Z b <= inject_Z c / inject_Z d)%Q <-> a * d <= c * b.
Proof.
  intros Hb Hd. destruct b as [|b|b], d as [|d|d]; try lia.
  unfold Qle, Qdiv, Qmult, Qinv, inject_Z; cbn. lia.
Qed.

Lemma overflow_threshold_gt_1 : 1 < 2 ^ 1024 - 2 ^ 970.
Proof. vm_compute. reflexivity. Qed.

(** A quotient between 0 and 1 is in the range of the floats, and so is the
    quotient of 0 by anything. *)
Lemma overflows_unit a b :
  0 <= a <= b -> 0 < b -> overflows (inject_Z a / inject_Z b) = false.
Proof.
  intros Ha Hb. unfold overflows, overflow_threshold.
  pose proof overflow_threshold_gt_1 as HT. revert HT.
  generalize (2 ^ 1024 - 2 ^ 970) as T. intros T HT.
  destruct b as [|b|b]; try lia.
  unfold Qle_bool, Qabs, Qdiv, Qmult, Qinv, inject_Z; cbn.
  apply Z.leb_gt. nia.
Qed.

Lemma overflows_zero b : overflows (inject_Z 0 / inject_Z b) = false.
Proof.
  unfold overflows, overflow_threshold.
  pose proof overflow_threshold_gt_1 as HT. revert HT.
  generalize (2 ^ 1024 - 2 ^ 970) as T. intros T HT.
  destruct b as [|b|b];
    unfold Qle_bool, Qabs, Qdiv, Qmult, Qinv, inject_Z; cbn;
    apply Z.leb_gt; lia.
Qed.

(** With the standard deviation 2 of the notebook, [random.gauss] raises
    exactly when the mean is too large for a float. *)
Lemma random_gauss_eq mu r :
  random_gauss mu (2 # 1) r =
    if overflows mu then Raise OverflowError
    else Ok ((mu + normal r (normal_calls r) * (2 # 1))%Q, tick_normal r).
Proof.
  unfold random_gauss.
  assert (overflows (2 # 1) = false) as -> by (vm_compute; reflexivity).
  reflexivity.
Qed.

(** The generator after [i] calls of [random.gauss]. *)
Lemma iter_tick_normal i r :
  normal (Nat.iter i tick_normal r) = normal r /\
  normal_calls (Nat.iter i tick_normal r) = (normal_calls r + i)%nat.
Proof.
  induction i as [|i [IHn IHc]].
  - cbn. split; [reflexivity | lia].
  - change (Nat.iter (S i) tick_normal r)
      with (tick_normal (Nat.iter i tick_normal r)).
    unfold tick_normal at 1 3. cbn [normal normal_calls].
    split; [exact IHn | rewrite IHc; lia].
Qed.

(** * Properties of the transition rules *)

Section TransitionRules.

Variable cfg : Settings.
Variable generation : Z.

Lemma s_2_l_eq vine nb r :
  s_2_l cfg vine nb r =
    let infectivity := default_infectivity cfg * infected_count nb in
    if infectivity + infectivity_offset vine =? 0
    then Raise ZeroDivisionError
    else if overflows (inject_Z infectivity
                       / inject_Z (infectivity + infectivity_offset vine))
    then Raise OverflowError
    else Ok (Qle_bool (next_uniform r)
               (inject_Z infectivity
                / inject_Z (infectivity + infectivity_offset vine))%Q,
             tick_uniform r).
Proof.
  unfold s_2_l, bind, random_random, true_div. cbn zeta beta iota.
  destruct (_ =? 0); [reflexivity|].
  destruct (overflows _); reflexivity.
Qed.

Lemma manual_removal_eq vine nb r :
  manual_removal cfg generation vine nb r =
    if 0 <? generation then
      if removal_threshold cfg =? 0 then Raise ZeroDivisionError
      else Ok (generation mod removal_threshold cfg =? 0, r)
    else Ok (false, r).
Proof.
  unfold manual_removal, bind, py_mod.
  destruct (0 <? generation); [|reflexivity].
  destruct (removal_threshold cfg =? 0); reflexivity.
Qed.

Lemma update_agent_healthy vine nb r :
  state vine = SUSCEPTIBLE \/ state vine = RECOVERED ->
  update_agent cfg generation vine nb r =
    match s_2_l cfg vine nb r with
    | Ok (fired, r') =>
        Ok (set_state_next (if fired then LATENT else state vine) vine, r')
    | Raise e => Raise e
    end.
Proof.
  intros Hs. unfold update_agent, update_healthy, update_latent,
    update_infected, bind, ret.
  destruct vine as [[] sn ini off cnt dur]; cbn in Hs;
    destruct Hs as [Hs | Hs]; try discriminate Hs; cbn -[s_2_l];
    destruct (s_2_l _ _ _ _) as [[[] r'] | e]; reflexivity.
Qed.

Lemma update_agent_latent vine nb r :
  state vine = LATENT ->
  update_agent cfg generation vine nb r =
    let vine' := set_latency_counter (latency_counter vine + 1) vine in
    Ok (set_state_next (if l_2_i vine' nb then INFECTED else LATENT) vine', r).
Proof.
  intros Hs. unfold update_agent, update_healthy, update_latent,
    update_infected, bind, ret.
  destruct vine as [[] sn ini off cnt dur]; try discriminate Hs; cbn.
  destruct (l_2_i _ nb); reflexivity.
Qed.

Lemma update_agent_infected vine nb r :
  state vine = INFECTED ->
  update_agent cfg generation vine nb r =
    let vine0 := set_latency_counter 0 vine in
    if Qle_bool (next_uniform r) (recovery_rate cfg) then
      Ok (set_infectivity_offset (resistant_infectivity_offset cfg)
            (set_initial_state RECOVERED (set_state_next RECOVERED vine0)),
          tick_uniform r)
    else
      match manual_removal cfg generation vine0 nb (tick_uniform r) with
      | Ok (removed, r') =>
          Ok (set_state_next
                (if removed then initial_state vine else INFECTED) vine0, r')
      | Raise e => Raise e
      end.
Proof.
  intros Hs. unfold update_agent, update_healthy, update_latent,
    update_infected, self_recovery, random_random, bind, ret.
  destruct vine as [[] sn ini off cnt dur]; try discriminate Hs.
  cbn -[manual_removal].
  destruct (Qle_bool _ _); [reflexivity|].
  destruct (manual_removal _ _ _ _ _) as [[[] r'] | e]; reflexivity.
Qed.

(** [update_agent] never writes [state], and always writes [state_next]. *)
Lemma update_agent_state vine nb r vine' r' :
  update_agent cfg generation vine nb r = Ok (vine', r') ->
  state vine' = state vine /\ is_Some (state_next vine').
Proof.
  destruct (state vine) eqn:Hs.
  - rewrite update_agent_healthy by auto.
    destruct (s_2_l _ _ _ _) as [[fired r0] | e]; [|discriminate].
    intros [= <- <-]; cbn; eauto.
  - rewrite update_agent_latent by auto. cbn.
    intros [= <- <-]; cbn; eauto.
  - rewrite update_agent_infected by auto. cbn.
    destruct (Qle_bool _ _); [intros [= <- <-]; cbn; eauto|].
    destruct (manual_removal _ _ _ _ _) as [[removed r0] | e]; [|discriminate].
    intros [= <- <-]; cbn; eauto.
  - rewrite update_agent_healthy by auto.
    destruct (s_2_l _ _ _ _) as [[fired r0] | e]; [|discriminate].
    intros [= <- <-]; cbn; eauto.
Qed.

(** The neighbours enter [update_agent] only through the number of them
    whose [state] is Infected. *)
Lemma update_agent_neighbors vine nb1 nb2 r :
  infected_count nb1 = infected_count nb2 ->
  update_agent cfg generation vine nb1 r
  = update_agent cfg generation vine nb2 r.
Proof.
  intros Hc. destruct (state vine) eqn:Hs.
  - rewrite !update_agent_healthy, !s_2_l_eq, Hc by auto. reflexivity.
  - rewrite !update_agent_latent by auto. reflexivity.
  - rewrite !update_agent_infected by auto. cbn zeta.
    rewrite !manual_removal_eq. reflexivity.
  - rewrite !update_agent_healthy, !s_2_l_eq, Hc by auto. reflexivity.
Qed.

End TransitionRules.

(** * Properties of the computation and commit phases *)

Lemma state_eqb_eq s1 s2 : state_eqb s1 s2 = true <-> s1 = s2.
Proof. destruct s1, s2; cbn; split; intros H; congruence. Qed.

Lemma infected_count_states nb1 nb2 :
  List.map state nb1 = List.map state nb2 ->
  infected_count nb1 = infected_count nb2.
Proof.
  unfold infected_count. intros H. f_equal. revert nb2 H.
  induction nb1 as [|a nb1 IH]; intros [|b nb2] H; try discriminate H;
    [reflexivity|].
  cbn in H. injection H as Hab Hrest. cbn.
  assert (is_infected a = is_infected b) as ->
    by (unfold is_infected; congruence).
  destruct (is_infected b); cbn; rewrite (IH _ Hrest); reflexivity.
Qed.

Lemma infected_count_nonneg nb : 0 <= infected_count nb.
Proof. unfold infected_count. lia. Qed.

(** Two lists of agents that agree on every [state] give every agent
    neighbours with the same states. *)
Lemma neighbors_states size (cur snap : list Agent) i :
  (forall j, state <$> cur !! j = state <$> snap !! j) ->
  List.map state (neighbors size cur i)
  = List.map state (neighbors size snap i).
Proof.
  intros H. unfold neighbors.
  induction (grid_neighbors size i) as [|j js IH]; cbn; [reflexivity|].
  specialize (H j).
  destruct (cur !! j), (snap !! j); cbn in *; try discriminate H; [|exact IH].
  injection H as ->. f_equal. exact IH.
Qed.

Lemma update_agent_random cfg generation vine nb r vine' r' :
  update_agent cfg generation vine nb r = Ok (vine', r') ->
  uniform53 r' = uniform53 r /\ (uniform_calls r <= uniform_calls r')%nat.
Proof.
  destruct (state vine) eqn:Hs.
  - rewrite update_agent_healthy, s_2_l_eq by auto. cbn zeta.
    destruct (_ =? 0); [discriminate|].
    destruct (overflows _); [discriminate|]. intros [= <- <-]; cbn; auto.
  - rewrite update_agent_latent by auto. intros [= <- <-]; auto.
  - rewrite update_agent_infected by auto. cbn zeta.
    rewrite manual_removal_eq.
    destruct (Qle_bool _ _); [intros [= <- <-]; cbn; auto|].
    destruct (0 <? generation); [destruct (_ =? 0); [discriminate|]|];
      intros [= <- <-]; cbn; auto.
  - rewrite update_agent_healthy, s_2_l_eq by auto. cbn zeta.
    destruct (_ =? 0); [discriminate|].
    destruct (overflows _); [discriminate|]. intros [= <- <-]; cbn; auto.
Qed.

Section ComputationPhase.

Variable cfg : Settings.
Variable generation : Z.

(** The in-place loop and the loop over a frozen snapshot agree as long as
    the agents being staged still carry the snapshot's states, and the
    agents not yet processed are untouched. *)
Lemma compute_loop_snapshot ids :
  forall snap cur r,
    NoDup ids ->
    (forall j, state <$> cur !! j = state <$> snap !! j) ->
    (forall i, i ∈ ids -> cur !! i = snap !! i) ->
    compute_loop cfg generation ids cur r
    = snapshot_loop cfg generation snap ids cur r.
Proof.
  induction ids as [|i ids IH]; intros snap cur r Hnd Hst Hun; cbn;
    [reflexivity|].
  apply NoDup_cons in Hnd as [Hni Hnd].
  rewrite (Hun i) by left.
  destruct (snap !! i) as [vine|] eqn:Hi; [|reflexivity].
  unfold bind.
  rewrite (update_agent_neighbors cfg generation vine
             (neighbors (p_size cfg) cur i) (neighbors (p_size cfg) snap i))
    by (apply infected_count_states, neighbors_states, Hst).
  destruct (update_agent _ _ _ _ _) as [[vine' r'] | e] eqn:Hu;
    [|reflexivity].
  apply IH; [exact Hnd | |].
  - intros j. destruct (decide (i = j)) as [<- | Hne].
    + rewrite list_lookup_insert_eq.
      * rewrite Hi. cbn. f_equal.
        apply update_agent_state in Hu as [Hu _]. exact Hu.
      * apply lookup_lt_Some with vine. rewrite (Hun i) by left. exact Hi.
    + rewrite list_lookup_insert_ne by exact Hne. apply Hst.
  - intros j Hj. rewrite list_lookup_insert_ne.
    + apply Hun. right. exact Hj.
    + intros ->. contradiction.
Qed.

(** What the loop over a snapshot leaves at every index. *)
Lemma snapshot_loop_lookup ids :
  forall snap cur r res r',
    NoDup ids ->
    snapshot_loop cfg generation snap ids cur r = Ok (res, r') ->
    length res = length cur /\
    uniform53 r' = uniform53 r /\
    forall i,
      (i ∈ ids -> (i < length cur)%nat ->
       exists vine ri vine' ri',
         snap !! i = Some vine /\
         uniform53 ri = uniform53 r /\
         update_agent cfg generation vine (neighbors (p_size cfg) snap i) ri
         = Ok (vine', ri') /\
         res !! i = Some vine') /\
      (i ∉ ids -> res !! i = cur !! i).
Proof.
  induction ids as [|i ids IH]; intros snap cur r res r' Hnd; cbn.
  - intros [= <- <-]. split; [reflexivity|]. split; [reflexivity|].
    intros i. split; [|reflexivity].
    intros Hi. apply elem_of_nil in Hi as [].
  - apply NoDup_cons in Hnd as [Hni Hnd].
    destruct (snap !! i) as [vine|] eqn:Hi; [|discriminate].
    unfold bind.
    destruct (update_agent _ _ _ _ _) as [[vine' r1] | e] eqn:Hu;
      [|discriminate].
    intros Hloop. apply IH in Hloop as (Hlen & Hstream & Hall); [|exact Hnd].
    rewrite length_insert in Hlen.
    destruct (update_agent_random _ _ _ _ _ _ _ Hu) as [Hr1 _].
    split; [exact Hlen|]. split; [congruence|].
    intros j. split.
    + intros Hj Hlt. apply elem_of_cons in Hj as [-> | Hj].
      * exists vine, r, vine', r1. repeat split; try assumption.
        destruct (Hall i) as [_ Hout]. rewrite (Hout Hni).
        apply list_lookup_insert_eq. exact Hlt.
      * destruct (Hall j) as [Hin _].
        destruct Hin as (v & ri & v' & ri' & ? & ? & ? & ?);
          [exact Hj | rewrite length_insert; exact Hlt |].
        exists v, ri, v', ri'. repeat split; try assumption. congruence.
    + intros Hj. apply not_elem_of_cons in Hj as [Hne Hj].
      destruct (Hall j) as [_ Hout]. rewrite (Hout Hj).
      apply list_lookup_insert_ne. congruence.
Qed.

End ComputationPhase.

Lemma commit_loop_lookup vines :
  forall committed,
    commit_loop vines = Ok committed ->
    length committed = length vines /\
    forall i vine, vines !! i = Some vine ->
      exists s, state_next vine = Some s /\
                committed !! i = Some (set_state s vine).
Proof.
  induction vines as [|v vines IH]; intros committed; cbn.
  - intros [= <-]. split; [reflexivity|]. intros i vine Hi.
    rewrite lookup_nil in Hi. discriminate.
  - unfold commit. destruct (state_next v) as [s|] eqn:Hs; [|discriminate].
    destruct (commit_loop vines) as [rest|e]; [|discriminate].
    intros [= <-]. destruct (IH rest eq_refl) as [Hlen Hall].
    split; [cbn; congruence|].
    intros [|i] vine Hi; cbn in *.
    + injection Hi as <-. eauto.
    + apply Hall, Hi.
Qed.

Lemma commit_loop_total vines :
  Forall (fun vine => is_Some (state_next vine)) vines ->
  exists committed, commit_loop vines = Ok committed.
Proof.
  induction 1 as [|v vines [s Hs] _ [rest IH]]; cbn; [eauto|].
  unfold commit. rewrite Hs, IH. eauto.
Qed.

(** * Properties of [step] *)

Lemma compute_loop_eq_snapshot cfg generation vines r :
  compute_loop cfg generation (seq 0 (length vines)) vines r
  = snapshot_loop cfg generation vines (seq 0 (length vines)) vines r.
Proof.
  apply compute_loop_snapshot; [apply NoDup_seq | reflexivity | reflexivity].
Qed.

(** One [step], agent by agent: the committed agent at [i] is the result of
    [update_agent] on the pre-step agent at [i] with its pre-step
    neighbours, with [state] set to the [state_next] it computed. *)
Lemma step_lookup cfg w w' :
  step cfg w = Ok w' ->
  t w' = t w /\
  model_generation w' = t w /\
  length (agents w') = length (agents w) /\
  uniform53 (random w') = uniform53 (random w) /\
  running w' =
    (if count_state LATENT (agents w') + count_state INFECTED (agents w') =? 0
     then false else running w) /\
  forall i vine, agents w !! i = Some vine ->
    exists ri vine' ri' s,
      uniform53 ri = uniform53 (random w) /\
      update_agent cfg (model_generation w) vine
        (neighbors (p_size cfg) (agents w) i) ri = Ok (vine', ri') /\
      state_next vine' = Some s /\
      agents w' !! i = Some (set_state s vine').
Proof.
  unfold step. rewrite compute_loop_eq_snapshot.
  destruct (snapshot_loop _ _ _ _ _ _) as [[staged rnd] | e] eqn:Hloop;
    [|discriminate].
  destruct (commit_loop staged) as [committed | e] eqn:Hcommit;
    [|discriminate].
  intros [= <-]; cbn.
  apply snapshot_loop_lookup in Hloop as (Hlen & Hstream & Hall);
    [|apply NoDup_seq].
  apply commit_loop_lookup in Hcommit as [Hlen' Hcommitted].
  repeat (split; [congruence|]).
  intros i vine Hi.
  destruct (Hall i) as [Hin _].
  destruct Hin as (v & ri & v' & ri' & Hv & Hri & Hu & Hres).
  { apply elem_of_seq. split; [lia|]. cbn. eapply lookup_lt_Some, Hi. }
  { eapply lookup_lt_Some, Hi. }
  rewrite Hi in Hv. injection Hv as <-.
  destruct (Hcommitted _ _ Hres) as (s & Hs & Hc).
  exists ri, v', ri', s. auto.
Qed.

Lemma update_agent_total cfg generation vine nb r :
  0 <= default_infectivity cfg ->
  0 < infectivity_offset vine ->
  removal_threshold cfg <> 0 ->
  exists vine' r', update_agent cfg generation vine nb r = Ok (vine', r').
Proof.
  intros Hd Ho Ht. pose proof (infected_count_nonneg nb) as Hc.
  assert ((default_infectivity cfg * infected_count nb
           + infectivity_offset vine =? 0) = false) as Hden
    by (apply Z.eqb_neq; nia).
  assert (overflows
            (inject_Z (default_infectivity cfg * infected_count nb)
             / inject_Z (default_infectivity cfg * infected_count nb
                         + infectivity_offset vine)) = false) as Hfit
    by (apply overflows_unit; nia).
  apply Z.eqb_neq in Ht.
  destruct (state vine) eqn:Hs.
  - rewrite update_agent_healthy, s_2_l_eq by auto. cbn zeta.
    rewrite Hden, Hfit. eauto.
  - rewrite update_agent_latent by auto. eauto.
  - rewrite update_agent_infected by auto. cbn zeta.
    rewrite manual_removal_eq, Ht.
    destruct (Qle_bool _ _); [eauto|]. destruct (0 <? generation); eauto.
  - rewrite update_agent_healthy, s_2_l_eq by auto. cbn zeta.
    rewrite Hden, Hfit. eauto.
Qed.

(** The loop over a snapshot returns as soon as [update_agent] returns on
    every agent of the snapshot. *)
Lemma snapshot_loop_returns cfg generation snap ids :
  (forall i vine r, snap !! i = Some vine ->
     exists vine' r',
       update_agent cfg generation vine (neighbors (p_size cfg) snap i) r
       = Ok (vine', r')) ->
  Forall (fun i => (i < length snap)%nat) ids ->
  forall cur r,
    exists staged r',
      snapshot_loop cfg generation snap ids cur r = Ok (staged, r').
Proof.
  intros Hret Hids. induction Hids as [|i ids Hi _ IH]; intros cur r;
    cbn; [unfold ret; eauto|].
  apply lookup_lt_is_Some in Hi as [vine Hv]. rewrite Hv. unfold bind.
  destruct (Hret i vine r Hv) as (vine' & r' & ->). apply IH.
Qed.

Lemma snapshot_loop_total cfg generation snap ids :
  0 <= default_infectivity cfg ->
  removal_threshold cfg <> 0 ->
  Forall (fun vine => 0 < infectivity_offset vine) snap ->
  Forall (fun i => (i < length snap)%nat) ids ->
  forall cur r,
    exists staged r',
      snapshot_loop cfg generation snap ids cur r = Ok (staged, r').
Proof.
  intros Hd Ht Hoff. apply snapshot_loop_returns.
  intros i vine r Hv. apply update_agent_total; [exact Hd | | exact Ht].
  eapply (proj1 (Forall_lookup _ _) Hoff), Hv.
Qed.

Lemma step_returns cfg w :
  (forall i vine r, agents w !! i = Some vine ->
     exists vine' r',
       update_agent cfg (model_generation w) vine
         (neighbors (p_size cfg) (agents w) i) r = Ok (vine', r')) ->
  exists w', step cfg w = Ok w'.
Proof.
  intros Hret. unfold step. rewrite compute_loop_eq_snapshot.
  destruct (snapshot_loop_returns cfg (model_generation w) (agents w)
              (seq 0 (length (agents w))) Hret)
    with (cur := agents w) (r := random w) as (staged & rnd & Hloop).
  { apply Forall_forall. intros i Hi. apply elem_of_seq in Hi. lia. }
  rewrite Hloop.
  destruct (commit_loop_total staged) as [committed ->]; [|eauto].
  apply snapshot_loop_lookup in Hloop as (Hlen & _ & Hall);
    [|apply NoDup_seq].
  apply Forall_lookup. intros i v Hv.
  destruct (Hall i) as [Hin _].
  destruct Hin as (v0 & ri & v' & ri' & _ & _ & Hu & Hres).
  { apply elem_of_seq. split; [lia|]. cbn. rewrite <- Hlen.
    eapply lookup_lt_Some, Hv. }
  { rewrite <- Hlen. eapply lookup_lt_Some, Hv. }
  rewrite Hv in Hres. injection Hres as <-.
  eapply update_agent_state, Hu.
Qed.

Lemma step_total cfg w :
  0 <= default_infectivity cfg ->
  removal_threshold cfg <> 0 ->
  Forall (fun vine => 0 < infectivity_offset vine) (agents w) ->
  exists w', step cfg w = Ok w'.
Proof.
  intros Hd Ht Hoff. apply step_returns.
  intros i vine r Hv. apply update_agent_total; [exact Hd | | exact Ht].
  eapply (proj1 (Forall_lookup _ _) Hoff), Hv.
Qed.

(** * Properties of [setup] *)

Lemma is_intercropped_resistant_cultivar_eq cfg position r :
  is_intercropped_resistant_cultivar cfg position r =
    let period := intercropping_distance cfg + intercropping_row_count cfg in
    if period =? 0 then Raise ZeroDivisionError
    else Ok (intercropping_distance cfg <=? fst position mod period, r).
Proof.
  unfold is_intercropped_resistant_cultivar, bind, py_mod; cbn.
  destruct (_ =? 0); reflexivity.
Qed.

Lemma grid_position_index size x y :
  0 <= x -> 0 <= y < size ->
  grid_position size (grid_index size (x, y)) = (x, y).
Proof.
  intros Hx Hy. unfold grid_position, grid_index; cbn.
  rewrite Z2Nat.id by nia. f_equal.
  - symmetry. apply Z.div_unique with y; lia.
  - symmetry. apply Z.mod_unique with x; lia.
Qed.

Lemma grid_index_lt size x y :
  0 <= x < size -> 0 <= y < size ->
  (grid_index size (x, y) < Z.to_nat (size ^ 2))%nat.
Proof.
  intros Hx Hy. unfold grid_index; cbn.
  apply Z2Nat.inj_lt; nia.
Qed.

(** The initialiser gives the agent created for index [i] the attributes of
    its cultivar and, as latency duration, the Normal draw as it is. *)
Lemma set_up_loop_lookup cfg ids :
  forall r vines r',
    set_up_loop cfg ids r = Ok (vines, r') ->
    length vines = length ids /\
    uniform53 r' = uniform53 r /\ uniform_calls r' = uniform_calls r /\
    forall k i, ids !! k = Some i ->
      intercropping_distance cfg + intercropping_row_count cfg <> 0 /\
      vines !! k =
        Some (new_agent cfg
                (intercropping_distance cfg
                 <=? fst (grid_position (p_size cfg) i)
                     mod (intercropping_distance cfg
                          + intercropping_row_count cfg))
                (default_latency_duration cfg
                 + normal r (normal_calls r + k)%nat * (2 # 1))%Q).
Proof.
  induction ids as [|i ids IH]; intros r vines r'; cbn.
  - intros [= <- <-]. split; [reflexivity|]. split; [reflexivity|].
    split; [reflexivity|]. intros k i Hk.
    rewrite lookup_nil in Hk. discriminate Hk.
  - unfold bind. rewrite is_intercropped_resistant_cultivar_eq. cbn zeta.
    destruct (_ =? 0) eqn:Hp; [discriminate|]. apply Z.eqb_neq in Hp.
    rewrite random_gauss_eq.
    destruct (overflows _); [discriminate|].
    destruct (set_up_loop cfg ids (tick_normal r)) as [[rest r1] | e] eqn:Hl;
      [|discriminate].
    intros [= <- <-].
    destruct (IH _ _ _ Hl) as (Hlen & Hu & Hc & Hall).
    split; [cbn; congruence|]. split; [exact Hu|]. split; [exact Hc|].
    intros [|k] j Hj; (split; [exact Hp|]).
    + cbn in Hj. injection Hj as <-. cbn. rewrite Nat.add_0_r. reflexivity.
    + destruct (Hall k j Hj) as [_ Hk].
      etransitivity; [exact Hk|]. cbn. rewrite Nat.add_succ_r. reflexivity.
Qed.

Lemma set_up_loop_total cfg ids r :
  intercropping_distance cfg + intercropping_row_count cfg <> 0 ->
  overflows (default_latency_duration cfg) = false ->
  exists vines r', set_up_loop cfg ids r = Ok (vines, r').
Proof.
  intros Hp Hfit. apply Z.eqb_neq in Hp. revert r.
  induction ids as [|i ids IH]; intros r; cbn; [unfold ret; eauto|].
  unfold bind. rewrite is_intercropped_resistant_cultivar_eq. cbn zeta.
  rewrite Hp, random_gauss_eq, Hfit.
  destruct (IH (tick_normal r)) as (rest & r' & ->). unfold ret. eauto.
Qed.

(** The loop of the initialiser either returns or raises one of its two
    exceptions: the division by a zero period, or the overflow of the mean
    latency duration. *)
Lemma set_up_loop_raise_inv cfg ids :
  forall r e,
    set_up_loop cfg ids r = Raise e ->
    (e = ZeroDivisionError /\
     intercropping_distance cfg + intercropping_row_count cfg = 0)
    \/ (e = OverflowError /\
        overflows (default_latency_duration cfg) = true).
Proof.
  induction ids as [|i ids IH]; intros r e; cbn; [discriminate|].
  unfold bind. rewrite is_intercropped_resistant_cultivar_eq. cbn zeta.
  destruct (Z.eqb_spec (intercropping_distance cfg
                        + intercropping_row_count cfg) 0) as [Hz | _].
  - intros [= <-]. auto.
  - rewrite random_gauss_eq.
    destruct (overflows _) eqn:Hfit; [intros [= <-]; auto|].
    destruct (set_up_loop cfg ids (tick_normal r)) as [[rest r1] | e']
      eqn:Hl; [discriminate|].
    intros [= <-]. eapply IH, Hl.
Qed.

(** Seeding touches the [state] of the selected agents and nothing else. *)
Lemma seed_lookup initial_infected :
  forall (vines : list Agent) i,
    seed initial_infected vines !! i =
      (if bool_decide (i ∈ initial_infected) then set_state LATENT <$> vines !! i
       else vines !! i).
Proof.
  unfold seed.
  induction initial_infected as [|j sel IH]; intros vines i; cbn.
  - rewrite bool_decide_eq_false_2; [reflexivity | apply not_elem_of_nil].
  - rewrite IH. destruct (decide (j = i)) as [-> | Hne].
    + rewrite list_lookup_alter_eq.
      rewrite (bool_decide_eq_true_2 (i ∈ i :: sel)) by left.
      destruct (bool_decide (i ∈ sel)); [|reflexivity].
      destruct (vines !! i); reflexivity.
    + rewrite list_lookup_alter_ne by exact Hne.
      destruct (decide (i ∈ sel)) as [Hin | Hnin].
      * rewrite !bool_decide_eq_true_2; [reflexivity | right | ]; exact Hin.
      * rewrite !bool_decide_eq_false_2; [reflexivity | | exact Hnin].
        intros H. apply elem_of_cons in H as [-> | H]; contradiction.
Qed.

Lemma seed_length initial_infected :
  forall vines : list Agent, length (seed initial_infected vines) = length vines.
Proof.
  unfold seed. induction initial_infected as [|j sel IH]; intros vines; cbn;
    [reflexivity|].
  rewrite IH. apply length_alter.
Qed.

(** The sample holds [k] pairwise distinct members of the population, and
    takes nothing from the generators of [random.random] and
    [random.gauss]. *)
Lemma sample_spec k :
  forall population r sel r',
    sample population k r = Ok (sel, r') ->
    length sel = k /\
    (forall x, x ∈ sel -> x ∈ population) /\
    (NoDup population -> NoDup sel) /\
    uniform53 r' = uniform53 r /\ uniform_calls r' = uniform_calls r /\
    normal r' = normal r /\ normal_calls r' = normal_calls r.
Proof.
  induction k as [|k IH]; intros population r sel r'; cbn.
  - intros [= <- <-]. repeat split; try constructor.
    intros x Hx. apply elem_of_nil in Hx as [].
  - unfold bind, next_choice.
    destruct (population !! _) as [x|] eqn:Hx; [|discriminate].
    destruct (sample _ k _) as [[rest r1] | e] eqn:Hs; [|discriminate].
    intros [= <- <-].
    destruct (IH _ _ _ _ Hs) as (Hlen & Hin & Hnd & Hu & Hc & Hn & Hnc).
    split; [cbn; congruence|].
    split.
    { intros y Hy. apply elem_of_cons in Hy as [-> | Hy].
      - eapply list_elem_of_lookup_2, Hx.
      - eapply list_elem_of_delete_inv, Hin, Hy. }
    split; [|auto].
    intros Hpop. rewrite (delete_Permutation _ _ _ Hx) in Hpop.
    apply NoDup_cons in Hpop as [Hnotin Hdel].
    apply NoDup_cons. split; [|auto].
    intros Hxr. apply Hnotin, Hin, Hxr.
Qed.

Lemma sample_total k :
  forall population r,
    (k <= length population)%nat ->
    exists sel r', sample population k r = Ok (sel, r').
Proof.
  induction k as [|k IH]; intros population r Hk; cbn;
    [unfold ret; eauto|].
  unfold bind, next_choice.
  destruct (lookup_lt_is_Some_2 population
              (choice r (choice_calls r) mod length population)%nat)
    as [x ->].
  { apply Nat.mod_upper_bound. lia. }
  destruct (IH (delete (choice r (choice_calls r) mod length population)%nat
                  population) (tick_choice r)) as (rest & r' & ->).
  { rewrite length_delete; [lia|]. apply lookup_lt_is_Some_2.
    apply Nat.mod_upper_bound. lia. }
  unfold ret. eauto.
Qed.

Lemma AgentList_random_spec n population r sel r' :
  AgentList_random n population r = Ok (sel, r') ->
  0 <= n <= Z.of_nat (length population) /\
  Z.of_nat (length sel) = n /\
  (forall x, x ∈ sel -> x ∈ population) /\
  (NoDup population -> NoDup sel) /\
  uniform53 r' = uniform53 r /\ uniform_calls r' = uniform_calls r /\
  normal r' = normal r /\ normal_calls r' = normal_calls r.
Proof.
  unfold AgentList_random. destruct (n =? 1) eqn:H1.
  - apply Z.eqb_eq in H1 as ->.
    destruct population as [|p population]; [discriminate|].
    intros Hs. apply sample_spec in Hs as (Hlen & Hrest).
    split; [cbn [length]; lia|]. split; [lia | exact Hrest].
  - destruct ((n <? 0) || (Z.of_nat (length population) <? n)) eqn:Hr;
      [discriminate|].
    apply orb_false_iff in Hr as [Hn Hp].
    apply Z.ltb_ge in Hn, Hp.
    intros Hs. apply sample_spec in Hs as (Hlen & Hrest).
    split; [lia|]. split; [lia | exact Hrest].
Qed.

Lemma AgentList_random_total n population r :
  0 <= n <= Z.of_nat (length population) ->
  exists sel r', AgentList_random n population r = Ok (sel, r').
Proof.
  intros Hn. unfold AgentList_random. destruct (n =? 1) eqn:H1.
  - apply Z.eqb_eq in H1 as ->.
    destruct population as [|p population]; [cbn in Hn; lia|].
    apply sample_total. cbn. lia.
  - assert ((n <? 0) || (Z.of_nat (length population) <? n) = false) as ->.
    { apply orb_false_iff. split; apply Z.ltb_ge; lia. }
    apply sample_total. lia.
Qed.

(** [setup] is the initialiser followed by the seeding of a sample. *)
Lemma setup_inv cfg r vines r' :
  setup cfg r = Ok (vines, r') ->
  exists vines0 r0 initial_infected,
    set_up_agent_variable_attributes cfg (Z.to_nat (p_size cfg ^ 2)) r
    = Ok (vines0, r0) /\
    AgentList_random (p_initial_infection_count cfg)
      (seq 0 (Z.to_nat (p_size cfg ^ 2))) r0 = Ok (initial_infected, r') /\
    vines = seed initial_infected vines0.
Proof.
  unfold setup. cbn zeta.
  destruct (p_size cfg <=? 0); [discriminate|]. unfold bind.
  destruct (set_up_agent_variable_attributes _ _ _) as [[vines0 r0] | e]
    eqn:Hinit; [|discriminate].
  destruct (AgentList_random _ _ _) as [[sel r1] | e] eqn:Hsel;
    [|discriminate].
  intros [= <- <-]. exists vines0, r0, sel.
  split; [reflexivity|]. split; [exact Hsel | reflexivity].
Qed.

(** [setup] returns only for a grid with a positive side. *)
Lemma setup_size cfg r vines r' :
  setup cfg r = Ok (vines, r') -> 0 < p_size cfg.
Proof.
  unfold setup. cbn zeta.
  destruct (Z.leb_spec (p_size cfg) 0); [discriminate | auto].
Qed.

Lemma setup_not_positive cfg r :
  p_size cfg <= 0 -> setup cfg r = Raise ValueError.
Proof.
  intros Hsize. unfold setup. cbn zeta.
  rewrite (proj2 (Z.leb_le _ _) Hsize). reflexivity.
Qed.

Lemma setup_total cfg r :
  0 < p_size cfg ->
  intercropping_distance cfg + intercropping_row_count cfg <> 0 ->
  overflows (default_latency_duration cfg) = false ->
  0 <= p_initial_infection_count cfg <= p_size cfg ^ 2 ->
  exists vines r', setup cfg r = Ok (vines, r').
Proof.
  intros Hsize Hp Hfit Hk. unfold setup. cbn zeta.
  rewrite (proj2 (Z.leb_gt _ _) Hsize).
  unfold set_up_agent_variable_attributes, bind.
  destruct (set_up_loop_total cfg (seq 0 (Z.to_nat (p_size cfg ^ 2))) r Hp
              Hfit) as (vines0 & r0 & ->).
  destruct (AgentList_random_total (p_initial_infection_count cfg)
              (seq 0 (Z.to_nat (p_size cfg ^ 2))) r0) as (sel & r' & ->).
  { rewrite length_seq. lia. }
  unfold ret. eauto.
Qed.

(** What [sim_setup] leaves at every index: the agent of the initialiser,
    with [state] forced to Latent when the index was sampled. *)
Lemma sim_setup_lookup cfg rnd w :
  sim_setup cfg rnd = Ok w ->
  t w = 0 /\ model_generation w = 0 /\
  uniform53 (random w) = uniform53 rnd /\
  uniform_calls (random w) = uniform_calls rnd /\
  length (agents w) = Z.to_nat (p_size cfg ^ 2) /\
  exists initial_infected,
    Z.of_nat (length initial_infected) = p_initial_infection_count cfg /\
    forall i vine, agents w !! i = Some vine ->
      exists vine0,
        vine0 =
          new_agent cfg
            (intercropping_distance cfg
             <=? fst (grid_position (p_size cfg) i)
                 mod (intercropping_distance cfg
                      + intercropping_row_count cfg))
            (default_latency_duration cfg
             + normal rnd (normal_calls rnd + i)%nat * (2 # 1))%Q /\
        vine = (if bool_decide (i ∈ initial_infected)
                then set_state LATENT vine0 else vine0).
Proof.
  unfold sim_setup.
  destruct (setup cfg rnd) as [[vines r'] | e] eqn:Hs; [|discriminate].
  intros [= <-]; cbn.
  apply setup_inv in Hs as (vines0 & r0 & sel & Hinit & Hsel & ->).
  apply set_up_loop_lookup in Hinit as (Hlen & Hu & Hc & Hall).
  apply AgentList_random_spec in Hsel
    as (_ & Hk & _ & _ & Hu' & Hc' & _ & _).
  rewrite length_seq in Hlen.
  split; [reflexivity|]. split; [reflexivity|].
  split; [congruence|]. split; [congruence|].
  split; [rewrite seed_length; exact Hlen|].
  exists sel. split; [exact Hk|].
  intros i vine Hi. rewrite seed_lookup in Hi.
  assert (i < Z.to_nat (p_size cfg ^ 2))%nat as Hlt.
  { rewrite <- Hlen. destruct (vines0 !! i) as [v|] eqn:Hv.
    - eapply lookup_lt_Some, Hv.
    - destruct (bool_decide _); discriminate Hi. }
  destruct (Hall i i) as [_ Hv]; [apply lookup_seq; lia|].
  rewrite Hv in Hi. eexists. split; [reflexivity|].
  destruct (bool_decide _); cbn in Hi; congruence.
Qed.

(** * Properties of the driver *)

Lemma sim_step_lookup cfg w w' :
  sim_step cfg w = Ok w' ->
  t w' = t w + 1 /\
  model_generation w' = t w + 1 /\
  length (agents w') = length (agents w) /\
  uniform53 (random w') = uniform53 (random w) /\
  running w' =
    (if p_steps cfg <=? t w + 1 then false
     else if count_state LATENT (agents w')
             + count_state INFECTED (agents w') =? 0
          then false else running w) /\
  forall i vine, agents w !! i = Some vine ->
    exists ri vine' ri' s,
      uniform53 ri = uniform53 (random w) /\
      update_agent cfg (model_generation w) vine
        (neighbors (p_size cfg) (agents w) i) ri = Ok (vine', ri') /\
      state_next vine' = Some s /\
      agents w' !! i = Some (set_state s vine').
Proof.
  unfold sim_step.
  destruct (step cfg _) as [w1 | e] eqn:Hstep; [|discriminate].
  intros [= <-]; cbn.
  apply step_lookup in Hstep as (Ht & Hg & Hlen & Hu & Hrun & Hall).
  cbn in *. rewrite Ht, Hrun.
  repeat (split; [assumption || reflexivity|]). exact Hall.
Qed.

Lemma run_loop_stopped cfg fuel w :
  running w = false -> run_loop cfg fuel w = Ok w.
Proof. intros H. destruct fuel; cbn; [|rewrite H]; reflexivity. Qed.

Lemma reachable_run_loop cfg fuel :
  forall w w', reachable cfg w -> run_loop cfg fuel w = Ok w' ->
               reachable cfg w'.
Proof.
  induction fuel as [|fuel IH]; intros w w' Hr; cbn.
  - intros [= <-]. exact Hr.
  - destruct (running w) eqn:Hrun; [|intros [= <-]; exact Hr].
    destruct (sim_step cfg w) as [w1 | e] eqn:Hs; [|discriminate].
    apply IH. eapply reachable_step; eassumption.
Qed.

(** During a run the global [model_generation] equals the number of
    completed steps, which is also AgentPy's [t] between two steps. *)
Lemma reachable_generation cfg w :
  reachable cfg w -> model_generation w = t w /\ 0 <= t w.
Proof.
  induction 1 as [rnd w Hs | w w' _ [IHg IHt] _ Hs].
  - apply sim_setup_lookup in Hs as (-> & -> & _). lia.
  - apply sim_step_lookup in Hs as (-> & -> & _). lia.
Qed.

(** The latency counter of a Susceptible or Recovered agent is zero
    throughout a run. *)
Lemma reachable_counter_zero cfg w :
  reachable cfg w ->
  forall i vine, agents w !! i = Some vine ->
    state vine = SUSCEPTIBLE \/ state vine = RECOVERED ->
    latency_counter vine = 0.
Proof.
  induction 1 as [rnd w Hs | w w' _ IH _ Hs]; intros i vine Hi Hst.
  - apply sim_setup_lookup in Hs as (_ & _ & _ & _ & _ & sel & _ & Hall).
    destruct (Hall i vine Hi) as (vine0 & -> & ->).
    destruct (bool_decide _); reflexivity.
  - apply sim_step_lookup in Hs as (_ & _ & Hlen & _ & _ & Hall).
    destruct (lookup_lt_is_Some_2 (agents w) i) as [v Hv].
    { rewrite <- Hlen. eapply lookup_lt_Some, Hi. }
    destruct (Hall i v Hv) as (ri & v' & ri' & s & _ & Hu & Hs' & Hi').
    rewrite Hi in Hi'. injection Hi' as ->. cbn in *.
    specialize (IH i v Hv).
    destruct (state v) eqn:Hv0.
    + rewrite update_agent_healthy in Hu by auto.
      destruct (s_2_l _ _ _ _) as [[fired r0] | e]; [|discriminate].
      injection Hu as <- <-. cbn. auto.
    + rewrite update_agent_latent in Hu by auto. cbn in Hu.
      injection Hu as <- <-. cbn in Hs'. injection Hs' as <-.
      destruct (l_2_i _ _); destruct Hst; discriminate.
    + rewrite update_agent_infected in Hu by auto. cbn zeta in Hu.
      destruct (Qle_bool _ _); [injection Hu as <- <-; reflexivity|].
      destruct (manual_removal _ _ _ _ _) as [[removed r0] | e];
        [|discriminate].
      injection Hu as <- <-. reflexivity.
    + rewrite update_agent_healthy in Hu by auto.
      destruct (s_2_l _ _ _ _) as [[fired r0] | e]; [|discriminate].
      injection Hu as <- <-. cbn. auto.
Qed.

(** The latency counter is never negative during a run. *)
Lemma reachable_counter_nonneg cfg w :
  reachable cfg w ->
  forall i vine, agents w !! i = Some vine -> 0 <= latency_counter vine.
Proof.
  induction 1 as [rnd w Hs | w w' _ IH _ Hs]; intros i vine Hi.
  - apply sim_setup_lookup in Hs as (_ & _ & _ & _ & _ & sel & _ & Hall).
    destruct (Hall i vine Hi) as (vine0 & -> & ->).
    destruct (bool_decide _); cbn; lia.
  - apply sim_step_lookup in Hs as (_ & _ & Hlen & _ & _ & Hall).
    destruct (lookup_lt_is_Some_2 (agents w) i) as [v Hv].
    { rewrite <- Hlen. eapply lookup_lt_Some, Hi. }
    destruct (Hall i v Hv) as (ri & v' & ri' & s & _ & Hu & Hs' & Hi').
    rewrite Hi in Hi'. injection Hi' as ->. cbn.
    specialize (IH i v Hv).
    destruct (state v) eqn:Hv0.
    + rewrite update_agent_healthy in Hu by auto.
      destruct (s_2_l _ _ _ _) as [[fired r0] | e]; [|discriminate].
      injection Hu as <- <-. exact IH.
    + rewrite update_agent_latent in Hu by auto.
      injection Hu as <- <-. cbn. lia.
    + rewrite update_agent_infected in Hu by auto. cbn zeta in Hu.
      destruct (Qle_bool _ _); [injection Hu as <- <-; cbn; lia|].
      destruct (manual_removal _ _ _ _ _) as [[removed r0] | e];
        [|discriminate].
      injection Hu as <- <-. cbn. lia.
    + rewrite update_agent_healthy in Hu by auto.
      destruct (s_2_l _ _ _ _) as [[fired r0] | e]; [|discriminate].
      injection Hu as <- <-. exact IH.
Qed.

(** * The claims *)

(** ** Infection from the neighbourhood *)

(** With no Infected neighbour the quotient is [0 / offset = 0], and the
    test [prob <= 0] holds exactly when the draw is [0.0]. *)
Lemma s_2_l_no_infected_neighbor cfg vine nb r :
  infected_count nb = 0 ->
  infectivity_offset vine <> 0 ->
  s_2_l cfg vine nb r
  = Ok ((uniform53 r (uniform_calls r) mod two53 =? 0)%N, tick_uniform r).
Proof.
  intros Hc Ho. rewrite s_2_l_eq. cbn zeta.
  rewrite Hc, Z.mul_0_r, Z.add_0_l.
  apply Z.eqb_neq in Ho. rewrite Ho. f_equal. f_equal.
  unfold next_uniform, unit_interval, Qle_bool, Qdiv, Qmult, Qinv; cbn.
  destruct (infectivity_offset vine); cbn;
    destruct (_ mod two53)%N; reflexivity.
Qed.

(** C2, at the failing input: a Susceptible vine of the default cultivar
    with no neighbour at all (so no Infected neighbour), when
    [random.random()] returns 0.0, is staged for Latent: [s_2_l] fires. *)
Theorem s_2_l_fires_on_zero_draw :
  infected_count [] = 0 /\
  (next_uniform (constant_draws 0 0) == 0)%Q /\
  s_2_l default_settings (default_vine SUSCEPTIBLE 0) []
    (constant_draws 0 0)
  = Ok (true, tick_uniform (constant_draws 0 0)) /\
  update_agent default_settings 0 (default_vine SUSCEPTIBLE 0) []
    (constant_draws 0 0)
  = Ok (set_state_next LATENT (default_vine SUSCEPTIBLE 0),
        tick_uniform (constant_draws 0 0)).
Proof. repeat split. Qed.

(** ** Removal of infected vines *)

(** C3. For an Infected vine on which [self_recovery] does not fire,
    [manual_removal] fires exactly when the global generation counter read
    during the step is a strictly positive multiple of [removal_threshold],
    and then stages [initial_state]; otherwise the vine stays Infected.
    With a threshold of 10 it fires at counter 10, 20, 30 and not at
    0..9 or 11..19.  During a run the counter read by a step is the number
    of steps completed before it. *)
Theorem manual_removal_synchrony cfg generation vine nb r :
  state vine = INFECTED ->
  Qle_bool (next_uniform r) (recovery_rate cfg) = false ->
  removal_threshold cfg <> 0 ->
  exists fired,
    manual_removal cfg generation (set_latency_counter 0 vine) nb
      (tick_uniform r) = Ok (fired, tick_uniform r) /\
    (fired = true <->
     0 < generation /\ (removal_threshold cfg | generation)) /\
    update_agent cfg generation vine nb r =
      Ok (set_state_next (if fired then initial_state vine else INFECTED)
            (set_latency_counter 0 vine), tick_uniform r) /\
    (removal_threshold cfg = 10 ->
     (generation = 10 \/ generation = 20 \/ generation = 30 ->
      fired = true) /\
     (0 <= generation <= 9 \/ 11 <= generation <= 19 -> fired = false)) /\
    (forall w, reachable cfg w -> model_generation w = t w /\ 0 <= t w).
Proof.
  intros Hs Hrec Hthr.
  exists ((0 <? generation) && (generation mod removal_threshold cfg =? 0)).
  assert (manual_removal cfg generation (set_latency_counter 0 vine) nb
            (tick_uniform r)
          = Ok ((0 <? generation)
                && (generation mod removal_threshold cfg =? 0),
                tick_uniform r)) as Hm.
  { rewrite manual_removal_eq.
    destruct (0 <? generation); [|reflexivity].
    apply Z.eqb_neq in Hthr. rewrite Hthr. reflexivity. }
  split; [exact Hm|]. split.
  { rewrite andb_true_iff, Z.ltb_lt, Z.eqb_eq.
    rewrite (Z.mod_divide _ _ Hthr). reflexivity. }
  split.
  { rewrite update_agent_infected by exact Hs. cbn zeta.
    rewrite Hrec, Hm. reflexivity. }
  split.
  { intros ->. split.
    - intros [-> | [-> | ->]]; reflexivity.
    - intros [H | H].
      + apply andb_false_iff.
        destruct (Z.eq_dec generation 0) as [-> | Hne]; [left; reflexivity|].
        right. apply Z.eqb_neq. rewrite Z.mod_small; lia.
      + apply andb_false_iff. right. apply Z.eqb_neq.
        replace generation with (generation - 10 + 1 * 10) by lia.
        rewrite Z.mod_add, Z.mod_small; lia. }
  intros w Hw. apply reachable_generation with cfg. exact Hw.
Qed.

Lemma manual_removal_synchrony_witness :
  state (default_vine INFECTED 0) = INFECTED /\
  Qle_bool (next_uniform (constant_draws 4503599627370496 0))
    (recovery_rate default_settings) = false /\
  removal_threshold default_settings <> 0 /\
  exists fired,
    manual_removal default_settings 10
      (set_latency_counter 0 (default_vine INFECTED 0)) []
      (tick_uniform (constant_draws 4503599627370496 0))
    = Ok (fired, tick_uniform (constant_draws 4503599627370496 0)) /\
    fired = true.
Proof.
  split; [reflexivity|]. split; [reflexivity|]. split; [discriminate|].
  destruct (manual_removal_synchrony default_settings 10
              (default_vine INFECTED 0) []
              (constant_draws 4503599627370496 0))
    as (fired & Hm & _ & _ & Hten & _);
    [reflexivity | reflexivity | discriminate |].
  exists fired. split; [exact Hm|].
  apply Hten; [reflexivity | left; reflexivity].
Defined.

(** C5. On an Infected vine [self_recovery] is evaluated first, on the next
    uniform draw.  When it fires, [state_next] and [initial_state] become
    Recovered and [infectivity_offset] the resistant value, whatever the
    generation counter is: [manual_removal] is not evaluated (not even when
    evaluating it would raise).  [manual_removal] is consulted, on the
    generators left by [self_recovery], only when [self_recovery] did not
    fire. *)
Theorem self_recovery_priority cfg generation vine nb r :
  state vine = INFECTED ->
  Qle_bool (next_uniform r) (recovery_rate cfg) = true ->
  self_recovery cfg (set_latency_counter 0 vine) nb r
  = Ok (true, tick_uniform r) /\
  (forall generation',
     update_agent cfg generation' vine nb r =
       Ok (mkAgent INFECTED (Some RECOVERED) RECOVERED
             (resistant_infectivity_offset cfg) 0 (latency_duration vine),
           tick_uniform r)) /\
  (forall r0,
     update_agent cfg generation vine nb r0 =
       if Qle_bool (next_uniform r0) (recovery_rate cfg) then
         Ok (mkAgent INFECTED (Some RECOVERED) RECOVERED
               (resistant_infectivity_offset cfg) 0 (latency_duration vine),
             tick_uniform r0)
       else
         match manual_removal cfg generation (set_latency_counter 0 vine) nb
                 (tick_uniform r0) with
         | Ok (removed, r') =>
             Ok (set_state_next
                   (if removed then initial_state vine else INFECTED)
                   (set_latency_counter 0 vine), r')
         | Raise e => Raise e
         end).
Proof.
  intros Hs Hrec.
  split; [unfold self_recovery, bind, random_random, ret; rewrite Hrec;
          reflexivity|].
  split.
  - intros generation'. rewrite update_agent_infected by exact Hs. cbn zeta.
    rewrite Hrec. unfold set_infectivity_offset, set_initial_state,
      set_state_next, set_latency_counter; cbn. rewrite Hs. reflexivity.
  - intros r0. rewrite update_agent_infected by exact Hs. cbn zeta.
    destruct (Qle_bool (next_uniform r0) _); [|reflexivity].
    unfold set_infectivity_offset, set_initial_state,
      set_state_next, set_latency_counter; cbn. rewrite Hs. reflexivity.
Qed.

Lemma self_recovery_priority_witness :
  state (default_vine INFECTED 0) = INFECTED /\
  Qle_bool (next_uniform (constant_draws 0 0))
    (recovery_rate default_settings) = true /\
  manual_removal default_settings 10
    (set_latency_counter 0 (default_vine INFECTED 0)) []
    (tick_uniform (constant_draws 0 0))
  = Ok (true, tick_uniform (constant_draws 0 0)) /\
  update_agent default_settings 10 (default_vine INFECTED 0) []
    (constant_draws 0 0)
  = Ok (mkAgent INFECTED (Some RECOVERED) RECOVERED 180 0 (8 # 1),
        tick_uniform (constant_draws 0 0)).
Proof.
  split; [reflexivity|]. split; [reflexivity|]. split; [reflexivity|].
  apply (self_recovery_priority default_settings 10
           (default_vine INFECTED 0) [] (constant_draws 0 0));
    reflexivity.
Defined.

(** ** Latency *)

Lemma Qle_one_inject_Z z : 0 <= z -> (1 <= inject_Z (z + 1))%Q.
Proof. intros Hz. unfold Qle, inject_Z; cbn. lia. Qed.

(** C10. The latency duration of every vine is the Normal draw as it was
    made, [mean + 2 z], with no clamping, and its counter starts at 0.
    During a run, a Latent vine whose duration is at most its counter plus
    one -- in particular one whose duration is at most 1, whatever its
    counter -- is Infected after the next step. *)
Theorem l_2_i_unclamped cfg :
  (forall rnd w i vine,
     sim_setup cfg rnd = Ok w -> agents w !! i = Some vine ->
     latency_duration vine
     = (default_latency_duration cfg
        + normal rnd (normal_calls rnd + i)%nat * (2 # 1))%Q /\
     latency_counter vine = 0) /\
  (forall w w' i vine,
     reachable cfg w -> sim_step cfg w = Ok w' ->
     agents w !! i = Some vine -> state vine = LATENT ->
     (latency_duration vine <= inject_Z (latency_counter vine + 1))%Q
     \/ (latency_duration vine <= 1)%Q ->
     l_2_i (set_latency_counter (latency_counter vine + 1) vine)
       (neighbors (p_size cfg) (agents w) i) = true /\
     exists vine',
       agents w' !! i = Some vine' /\
       state vine' = INFECTED /\
       latency_duration vine' = latency_duration vine /\
       latency_counter vine' = latency_counter vine + 1).
Proof.
  split.
  - intros rnd w i vine Hs Hi.
    apply sim_setup_lookup in Hs as (_ & _ & _ & _ & _ & sel & _ & Hall).
    destruct (Hall i vine Hi) as (vine0 & -> & ->).
    destruct (bool_decide _); split; reflexivity.
  - intros w w' i vine Hw Hs Hi Hl Hd.
    assert (l_2_i (set_latency_counter (latency_counter vine + 1) vine)
              (neighbors (p_size cfg) (agents w) i) = true) as Hfire.
    { unfold l_2_i; cbn. apply Qle_bool_iff.
      destruct Hd as [Hd | Hd]; [exact Hd|].
      eapply Qle_trans; [exact Hd|]. apply Qle_one_inject_Z.
      eapply reachable_counter_nonneg; eassumption. }
    split; [exact Hfire|].
    apply sim_step_lookup in Hs as (_ & _ & _ & _ & _ & Hall).
    destruct (Hall i vine Hi) as (ri & v' & ri' & s & _ & Hu & Hs' & Hi').
    rewrite update_agent_latent in Hu by exact Hl. cbn zeta in Hu.
    rewrite Hfire in Hu. injection Hu as <- <-.
    cbn in Hs'. injection Hs' as <-.
    eexists. split; [exact Hi'|]. repeat split.
Qed.

Lemma l_2_i_unclamped_witness :
  sim_setup short_latency_settings short_latency_draws
  = Ok short_latency_world /\
  reachable short_latency_settings short_latency_world /\
  sim_step short_latency_settings short_latency_world
  = Ok short_latency_world_1 /\
  agents short_latency_world !! 0%nat
  = Some (mkAgent LATENT None SUSCEPTIBLE 10 0 (2 # 2)) /\
  (2 # 2 <= 1)%Q /\
  exists vine',
    agents short_latency_world_1 !! 0%nat = Some vine' /\
    state vine' = INFECTED.
Proof.
  assert (sim_setup short_latency_settings short_latency_draws
          = Ok short_latency_world) as Hsetup by (vm_compute; reflexivity).
  assert (reachable short_latency_settings short_latency_world) as Hreach
    by (eapply reachable_setup; exact Hsetup).
  assert (sim_step short_latency_settings short_latency_world
          = Ok short_latency_world_1) as Hstep by (vm_compute; reflexivity).
  assert (agents short_latency_world !! 0%nat
          = Some (mkAgent LATENT None SUSCEPTIBLE 10 0 (2 # 2))) as Hvine
    by (vm_compute; reflexivity).
  assert (2 # 2 <= 1)%Q as Hshort by (unfold Qle; cbn; lia).
  repeat (split; [assumption|]).
  destruct (proj2 (l_2_i_unclamped short_latency_settings)
              short_latency_world short_latency_world_1 0%nat
              (mkAgent LATENT None SUSCEPTIBLE 10 0 (2 # 2))
              Hreach Hstep Hvine eq_refl (or_intror Hshort))
    as (_ & vine' & Hv & Hinf & _).
  exists vine'. split; assumption.
Defined.

(** C4, as stated, fails: a vine that has just turned Infected still holds
    the count of its generations as Latent.  The lone seeded vine with
    latency duration 8 is Infected after 8 steps, with counter 8. *)
Lemma latency_counter_kept_on_leaving_latent :
  ~ (forall cfg w i vine,
       reachable cfg w -> agents w !! i = Some vine ->
       state vine <> LATENT -> latency_counter vine = 0).
Proof.
  intros H.
  assert (reachable lone_vine_settings lone_vine_world_8) as Hreach.
  { apply reachable_run_loop with 8%nat lone_vine_world.
    - apply reachable_setup with lone_vine_draws. vm_compute; reflexivity.
    - vm_compute; reflexivity. }
  specialize (H lone_vine_settings lone_vine_world_8 0%nat
                (mkAgent INFECTED (Some INFECTED) SUSCEPTIBLE 10 8 (8 # 1))
                Hreach).
  discriminate H; [vm_compute; reflexivity | discriminate].
Qed.

(** C4, amended.  Throughout a run: the counter of a Susceptible or
    Recovered vine is 0; every generation a vine spends Latent (the one in
    which it turns Infected included) adds exactly 1 to its counter; and
    every generation a vine spends Infected sets its counter to 0, so the
    reset comes one generation after the vine stopped being Latent. *)
Theorem latency_counter_discipline cfg w i vine :
  reachable cfg w -> agents w !! i = Some vine ->
  (state vine = SUSCEPTIBLE \/ state vine = RECOVERED ->
   latency_counter vine = 0) /\
  forall w', sim_step cfg w = Ok w' ->
    exists vine',
      agents w' !! i = Some vine' /\
      (state vine = LATENT ->
       latency_counter vine' = latency_counter vine + 1) /\
      (state vine = INFECTED -> latency_counter vine' = 0) /\
      (state vine' = SUSCEPTIBLE \/ state vine' = RECOVERED ->
       latency_counter vine' = 0).
Proof.
  intros Hw Hi. split.
  - eapply reachable_counter_zero; eassumption.
  - intros w' Hs.
    pose proof (sim_step_lookup _ _ _ Hs) as (_ & _ & _ & _ & _ & Hall).
    destruct (Hall i vine Hi) as (ri & v' & ri' & s & _ & Hu & Hs' & Hi').
    eexists. split; [exact Hi'|].
    split; [|split].
    + intros Hl. rewrite update_agent_latent in Hu by exact Hl.
      injection Hu as <- <-. reflexivity.
    + intros Hinf. rewrite update_agent_infected in Hu by exact Hinf.
      cbn zeta in Hu.
      destruct (Qle_bool _ _); [injection Hu as <- <-; reflexivity|].
      destruct (manual_removal _ _ _ _ _) as [[removed r0] | e];
        [|discriminate].
      injection Hu as <- <-. reflexivity.
    + intros Hst. cbn in Hst |- *.
      pose proof (reachable_counter_zero _ _ Hw i vine Hi) as Hz.
      destruct (state vine) eqn:Hv.
      * rewrite update_agent_healthy in Hu by auto.
        destruct (s_2_l _ _ _ _) as [[fired r0] | e]; [|discriminate].
        injection Hu as <- <-. cbn. auto.
      * rewrite update_agent_latent in Hu by auto. cbn zeta in Hu.
        injection Hu as <- <-. cbn in Hs'. injection Hs' as <-.
        destruct (l_2_i _ _); destruct Hst; discriminate.
      * rewrite update_agent_infected in Hu by auto. cbn zeta in Hu.
        destruct (Qle_bool _ _); [injection Hu as <- <-; reflexivity|].
        destruct (manual_removal _ _ _ _ _) as [[removed r0] | e];
          [|discriminate].
        injection Hu as <- <-. reflexivity.
      * rewrite update_agent_healthy in Hu by auto.
        destruct (s_2_l _ _ _ _) as [[fired r0] | e]; [|discriminate].
        injection Hu as <- <-. cbn. auto.
Qed.

Lemma latency_counter_discipline_witness :
  reachable lone_vine_settings lone_vine_world /\
  agents lone_vine_world !! 0%nat
  = Some (mkAgent LATENT None SUSCEPTIBLE 10 0 (8 # 1)) /\
  sim_step lone_vine_settings lone_vine_world = Ok lone_vine_world_1 /\
  exists vine',
    agents lone_vine_world_1 !! 0%nat = Some vine' /\
    latency_counter vine' = 0 + 1.
Proof.
  assert (reachable lone_vine_settings lone_vine_world) as Hreach.
  { apply reachable_setup with lone_vine_draws. vm_compute; reflexivity. }
  assert (agents lone_vine_world !! 0%nat
          = Some (mkAgent LATENT None SUSCEPTIBLE 10 0 (8 # 1))) as Hvine
    by (vm_compute; reflexivity).
  assert (sim_step lone_vine_settings lone_vine_world
          = Ok lone_vine_world_1) as Hstep by (vm_compute; reflexivity).
  repeat (split; [assumption|]).
  destruct (latency_counter_discipline lone_vine_settings lone_vine_world
              0%nat _ Hreach Hvine) as [_ Hnext].
  destruct (Hnext _ Hstep) as (vine' & Hv & Hlat & _).
  exists vine'. split; [exact Hv|]. apply Hlat. reflexivity.
Defined.

(** ** Synchronous update *)

(** C1. The computation phase, which updates the agents in place one after
    the other, stages exactly what the loop over a frozen copy of the
    pre-step agents stages: every agent's [state_next] is the result of
    [update_agent] on its pre-step self and its pre-step neighbours, and of
    the neighbours only their [state] matters.  After the whole phase every
    staged agent still has its pre-step [state] and has a [state_next]; only
    the commit phase then sets every [state] to the staged [state_next]. *)
Theorem step_synchronous cfg w :
  0 <= default_infectivity cfg ->
  removal_threshold cfg <> 0 ->
  Forall (fun vine => 0 < infectivity_offset vine) (agents w) ->
  exists staged rnd committed w',
    snapshot_loop cfg (model_generation w) (agents w)
      (seq 0 (length (agents w))) (agents w) (random w) = Ok (staged, rnd) /\
    compute_loop cfg (model_generation w)
      (seq 0 (length (agents w))) (agents w) (random w) = Ok (staged, rnd) /\
    commit_loop staged = Ok committed /\
    step cfg w = Ok w' /\
    agents w' = committed /\
    length staged = length (agents w) /\
    forall i vine, agents w !! i = Some vine ->
      exists ri vine' ri' s,
        update_agent cfg (model_generation w) vine
          (neighbors (p_size cfg) (agents w) i) ri = Ok (vine', ri') /\
        (forall nb,
           List.map state nb
           = List.map state (neighbors (p_size cfg) (agents w) i) ->
           update_agent cfg (model_generation w) vine nb ri
           = Ok (vine', ri')) /\
        staged !! i = Some vine' /\
        state vine' = state vine /\
        state_next vine' = Some s /\
        committed !! i = Some (set_state s vine').
Proof.
  intros Hd Ht Hoff.
  destruct (snapshot_loop_total cfg (model_generation w) (agents w)
              (seq 0 (length (agents w))) Hd Ht Hoff)
    with (cur := agents w) (r := random w) as (staged & rnd & Hloop).
  { apply Forall_forall. intros i Hi. apply elem_of_seq in Hi. lia. }
  pose proof (snapshot_loop_lookup _ _ _ _ _ _ _ _ (NoDup_seq 0 _) Hloop)
    as (Hlen & _ & Hall).
  assert (forall i vine, agents w !! i = Some vine ->
            exists ri vine' ri',
              update_agent cfg (model_generation w) vine
                (neighbors (p_size cfg) (agents w) i) ri = Ok (vine', ri') /\
              staged !! i = Some vine') as Hstaged.
  { intros i vine Hi. destruct (Hall i) as [Hin _].
    destruct Hin as (v & ri & v' & ri' & Hv & _ & Hu & Hres).
    - apply elem_of_seq. split; [lia|]. cbn. eapply lookup_lt_Some, Hi.
    - eapply lookup_lt_Some, Hi.
    - rewrite Hi in Hv. injection Hv as <-. eauto. }
  destruct (commit_loop_total staged) as [committed Hcommit].
  { apply Forall_lookup. intros i v' Hv'.
    destruct (lookup_lt_is_Some_2 (agents w) i) as [v Hv].
    { rewrite <- Hlen. eapply lookup_lt_Some, Hv'. }
    destruct (Hstaged i v Hv) as (ri & v1 & ri' & Hu & Hres).
    rewrite Hv' in Hres. injection Hres as <-.
    eapply update_agent_state, Hu. }
  pose proof (commit_loop_lookup _ _ Hcommit) as [_ Hcommitted].
  exists staged, rnd, committed.
  eexists. split; [exact Hloop|].
  split; [rewrite compute_loop_eq_snapshot; exact Hloop|].
  split; [exact Hcommit|].
  split.
  { unfold step. rewrite compute_loop_eq_snapshot, Hloop, Hcommit.
    reflexivity. }
  split; [reflexivity|]. split; [exact Hlen|].
  intros i vine Hi.
  destruct (Hstaged i vine Hi) as (ri & v' & ri' & Hu & Hres).
  destruct (Hcommitted _ _ Hres) as (s & Hs & Hc).
  exists ri, v', ri', s.
  split; [exact Hu|].
  split.
  { intros nb Hnb. rewrite <- Hu.
    apply update_agent_neighbors, infected_count_states, Hnb. }
  split; [exact Hres|].
  split; [eapply update_agent_state, Hu|]. split; assumption.
Qed.

Lemma step_synchronous_witness :
  0 <= default_infectivity small_grid_settings /\
  removal_threshold small_grid_settings <> 0 /\
  Forall (fun vine => 0 < infectivity_offset vine)
    (agents small_grid_world) /\
  exists w',
    step small_grid_settings small_grid_world = Ok w' /\
    length (agents w') = 4%nat.
Proof.
  assert (0 <= default_infectivity small_grid_settings) as Hd
    by (cbn; lia).
  assert (removal_threshold small_grid_settings <> 0) as Ht
    by discriminate.
  assert (Forall (fun vine => 0 < infectivity_offset vine)
            (agents small_grid_world)) as Hoff
    by (vm_compute; repeat constructor).
  repeat (split; [assumption|]).
  destruct (step_synchronous small_grid_settings small_grid_world Hd Ht Hoff)
    as (staged & rnd & committed & w' & _ & _ & Hcommit & Hstep & Hw'
        & Hlen & _).
  exists w'. split; [exact Hstep|].
  rewrite Hw'. apply commit_loop_lookup in Hcommit as [-> _].
  rewrite Hlen. vm_compute. reflexivity.
Defined.

(** ** Intercropping *)

(** C6. After setup, the vine on cell [(x, y)] is of the resistant cultivar
    (initial state Recovered, resistant offset) exactly when
    [x mod (D + R) >= D], and of the default cultivar (initial state
    Susceptible, default offset) exactly when [x mod (D + R) < D]; [y] plays
    no part.  With [D = R = 5] and offsets 10 and 180 the cells with
    [x mod 10] in 0..4 are default and those with [x mod 10] in 5..9 are
    resistant. *)
Theorem cultivar_banding cfg rnd w x y :
  sim_setup cfg rnd = Ok w ->
  0 <= x < p_size cfg ->
  0 <= y < p_size cfg ->
  exists vine,
    agents w !! grid_index (p_size cfg) (x, y) = Some vine /\
    grid_position (p_size cfg) (grid_index (p_size cfg) (x, y)) = (x, y) /\
    ((initial_state vine = RECOVERED /\
      infectivity_offset vine = resistant_infectivity_offset cfg) <->
     intercropping_distance cfg
     <= x mod (intercropping_distance cfg + intercropping_row_count cfg)) /\
    ((initial_state vine = SUSCEPTIBLE /\
      infectivity_offset vine = default_infectivity_offset cfg) <->
     x mod (intercropping_distance cfg + intercropping_row_count cfg)
     < intercropping_distance cfg) /\
    (intercropping_distance cfg = 5 -> intercropping_row_count cfg = 5 ->
     default_infectivity_offset cfg = 10 ->
     resistant_infectivity_offset cfg = 180 ->
     (0 <= x mod 10 <= 4 ->
      initial_state vine = SUSCEPTIBLE /\ infectivity_offset vine = 10) /\
     (5 <= x mod 10 <= 9 ->
      initial_state vine = RECOVERED /\ infectivity_offset vine = 180)).
Proof.
  intros Hs Hx Hy.
  apply sim_setup_lookup in Hs as (_ & _ & _ & _ & Hlen & sel & _ & Hall).
  destruct (lookup_lt_is_Some_2 (agents w) (grid_index (p_size cfg) (x, y)))
    as [vine Hv].
  { rewrite Hlen. apply grid_index_lt; assumption. }
  exists vine. split; [exact Hv|].
  pose proof (grid_position_index (p_size cfg) x y (proj1 Hx) Hy) as Hpos.
  split; [exact Hpos|].
  destruct (Hall _ _ Hv) as (vine0 & Hvine0 & Hvine).
  rewrite Hpos in Hvine0. cbn [fst] in Hvine0.
  assert (initial_state vine = initial_state vine0 /\
          infectivity_offset vine = infectivity_offset vine0) as [-> ->].
  { rewrite Hvine. destruct (bool_decide _); split; reflexivity. }
  rewrite Hvine0. unfold new_agent; cbn.
  destruct (Z.leb_spec (intercropping_distance cfg)
              (x mod (intercropping_distance cfg
                      + intercropping_row_count cfg))) as [Hle | Hlt].
  - split; [tauto|]. split; [split; [intros [? _]; discriminate | lia]|].
    intros HD HR Hdef Hres. rewrite HD, HR in Hle.
    change (5 + 5) with 10 in Hle. split; [lia | auto].
  - split; [split; [intros [? _]; discriminate | lia]|]. split; [tauto|].
    intros HD HR Hdef Hres. rewrite HD, HR in Hlt.
    change (5 + 5) with 10 in Hlt. split; [auto | lia].
Qed.

Lemma cultivar_banding_witness :
  sim_setup sample_grid_settings lone_vine_draws = Ok sample_grid_world /\
  0 <= 7 < p_size sample_grid_settings /\
  0 <= 3 < p_size sample_grid_settings /\
  exists vine,
    agents sample_grid_world !! 143%nat = Some vine /\
    initial_state vine = RECOVERED /\ infectivity_offset vine = 180.
Proof.
  assert (sim_setup sample_grid_settings lone_vine_draws
          = Ok sample_grid_world) as Hs by (vm_compute; reflexivity).
  assert (0 <= 7 < p_size sample_grid_settings) as Hx by (cbn; lia).
  assert (0 <= 3 < p_size sample_grid_settings) as Hy by (cbn; lia).
  repeat (split; [assumption|]).
  destruct (cultivar_banding sample_grid_settings lone_vine_draws
              sample_grid_world 7 3 Hs Hx Hy)
    as (vine & Hv & _ & _ & _ & Hdefault).
  exists vine. split; [exact Hv|].
  apply Hdefault; try reflexivity. change (7 mod 10) with 7. lia.
Defined.

(** The whole 20 x 20 vineyard: rows [x] = 0..4 and 10..14 start
    Susceptible (0), rows 5..9 and 15..19 Recovered (3). *)
Example sample_grid_banding :
  List.map (fun vine => AgentState_value (initial_state vine))
    (agents sample_grid_world)
  = List.flat_map
      (fun x => List.repeat (if 5 <=? x mod 10 then 3 else 0) 20)
      (List.map Z.of_nat (seq 0 20)).
Proof. vm_compute. reflexivity. Qed.

(** ** Stopping *)

Lemma count_state_zero s vines :
  (forall i vine, vines !! i = Some vine -> state vine <> s) ->
  count_state s vines = 0.
Proof.
  unfold count_state. intros H.
  induction vines as [|v vines IH]; [reflexivity|]. cbn.
  destruct (state_eqb (state v) s) eqn:Hv.
  - apply state_eqb_eq in Hv. destruct (H 0%nat v eq_refl Hv).
  - apply IH. intros i vine Hi. apply (H (S i)). exact Hi.
Qed.

Lemma infected_count_neighbors size (vines : list Agent) i :
  (forall j vine, vines !! j = Some vine -> state vine <> INFECTED) ->
  infected_count (neighbors size vines i) = 0.
Proof.
  intros H. unfold infected_count, neighbors.
  induction (grid_neighbors size i) as [|j js IH]; [reflexivity|]. cbn.
  destruct (vines !! j) as [v|] eqn:Hv; [|exact IH]. cbn.
  unfold is_infected at 1.
  destruct (state_eqb (state v) INFECTED) eqn:Hs; [|exact IH].
  apply state_eqb_eq in Hs. destruct (H j v Hv Hs).
Qed.

(** A step that leaves no Latent and no Infected vine stops the run: the
    run loop takes no further step. *)
Lemma sim_step_halts cfg w w' :
  sim_step cfg w = Ok w' ->
  count_state LATENT (agents w') + count_state INFECTED (agents w') = 0 ->
  running w' = false /\ forall fuel, run_loop cfg fuel w' = Ok w'.
Proof.
  intros Hs Hc. apply sim_step_lookup in Hs as (_ & _ & _ & _ & Hrun & _).
  assert (running w' = false) as Hstop.
  { rewrite Hrun, Hc. destruct (_ <=? _); reflexivity. }
  split; [exact Hstop|]. intros fuel. apply run_loop_stopped, Hstop.
Qed.

(** Without seeding, and as long as no [random.random()] returns 0.0, the
    first step leaves every vine healthy and stops the run. *)
Lemma no_seed_halts_after_first_step cfg rnd w :
  sim_setup cfg rnd = Ok w ->
  p_initial_infection_count cfg = 0 ->
  default_infectivity_offset cfg <> 0 ->
  resistant_infectivity_offset cfg <> 0 ->
  (forall k, (uniform53 rnd k mod two53)%N <> 0%N) ->
  exists w',
    sim_step cfg w = Ok w' /\ t w' = 1 /\ running w' = false /\
    forall fuel, run_loop cfg fuel w' = Ok w'.
Proof.
  intros Hs Hk Hdef Hres Hdraw.
  apply sim_setup_lookup in Hs as (Ht & _ & Hu & _ & _ & sel & Hsel & Hall).
  assert (forall i vine, agents w !! i = Some vine ->
            (state vine = SUSCEPTIBLE \/ state vine = RECOVERED) /\
            infectivity_offset vine <> 0) as Hhealthy.
  { intros i vine Hi. destruct (Hall i vine Hi) as (vine0 & -> & ->).
    destruct sel as [|j sel]; [|cbn in Hsel; lia].
    rewrite bool_decide_eq_false_2 by apply not_elem_of_nil.
    unfold new_agent. destruct (_ <=? _); cbn; auto. }
  assert (forall i, infected_count (neighbors (p_size cfg) (agents w) i) = 0)
    as Hnone.
  { intros i. apply infected_count_neighbors. intros j vine Hj Hinf.
    destruct (Hhealthy j vine Hj) as [[H | H] _]; congruence. }
  assert (forall i vine r, agents w !! i = Some vine ->
            uniform53 r = uniform53 (random w) ->
            update_agent cfg (model_generation w) vine
              (neighbors (p_size cfg) (agents w) i) r
            = Ok (set_state_next (state vine) vine, tick_uniform r))
    as Hupdate.
  { intros i vine r Hi Hr. destruct (Hhealthy i vine Hi) as [Hst Hoff].
    rewrite update_agent_healthy by exact Hst.
    rewrite s_2_l_no_infected_neighbor by auto.
    rewrite Hr, Hu. rewrite (proj2 (N.eqb_neq _ _) (Hdraw _)). reflexivity. }
  destruct (step_returns cfg (mkSimulation (t w + 1) (running w) (agents w)
                                (model_generation w) (random w)))
    as [w1 Hstep].
  { cbn. intros i vine r Hi. destruct (Hhealthy i vine Hi) as [Hst Hoff].
    rewrite update_agent_healthy by exact Hst.
    rewrite s_2_l_no_infected_neighbor by auto. eauto. }
  assert (sim_step cfg w = Ok (mkSimulation (t w1)
            (if p_steps cfg <=? t w1 then false else running w1)
            (agents w1) (model_generation w1) (random w1))) as Hsim
    by (unfold sim_step; rewrite Hstep; reflexivity).
  eexists. split; [exact Hsim|].
  pose proof (sim_step_lookup _ _ _ Hsim) as (Ht' & _ & Hlen & _ & _ & Hnext).
  split; [cbn in Ht' |- *; lia|].
  apply (sim_step_halts _ _ _ Hsim). cbn.
  assert (forall s, s = LATENT \/ s = INFECTED ->
            count_state s (agents w1) = 0) as Hcount.
  { intros s Hs. apply count_state_zero. intros i v1 Hi1 Hst1.
    destruct (lookup_lt_is_Some_2 (agents w) i) as [v Hv].
    { cbn in Hlen. rewrite <- Hlen. eapply lookup_lt_Some, Hi1. }
    destruct (Hnext i v Hv) as (ri & v' & ri' & s' & Hri & Hup & Hs' & Hi').
    cbn in Hi'. rewrite Hi1 in Hi'. injection Hi' as ->.
    rewrite (Hupdate i v ri Hv Hri) in Hup. injection Hup as <- <-.
    cbn in Hs'. injection Hs' as <-. cbn in Hst1.
    destruct (Hhealthy i v Hv) as [[H | H] _], Hs; congruence. }
  rewrite !Hcount by auto. reflexivity.
Qed.

(** C7, at the failing input: one vine, no seeding, and a first
    [random.random()] equal to 0.0.  Setup leaves no Latent and no Infected
    vine, yet the first step turns the vine Latent, the simulation is still
    running after it, and the run loop goes on to a second step. *)
Theorem no_seed_run_continues_on_zero_draw :
  sim_setup no_seed_settings (constant_draws 0 0) = Ok no_seed_world /\
  p_initial_infection_count no_seed_settings = 0 /\
  count_state LATENT (agents no_seed_world)
  + count_state INFECTED (agents no_seed_world) = 0 /\
  sim_step no_seed_settings no_seed_world = Ok no_seed_world_1 /\
  List.map state (agents no_seed_world_1) = [LATENT] /\
  running no_seed_world_1 = true /\
  t (world_of (run_loop no_seed_settings 2 no_seed_world)) = 2.
Proof. repeat split; vm_compute; reflexivity. Qed.

(** ** Configuration *)

(** C8, as stated, fails: setup goes through with a negative recovery rate
    and a negative mean latency duration. *)
Lemma setup_accepts_negative_rate_and_duration :
  ~ (forall cfg rnd,
       invalid_configuration cfg -> exists e, sim_setup cfg rnd = Raise e).
Proof.
  intros H.
  destruct (H negative_rate_settings (constant_draws 0 0)) as [e He].
  - right. right. left. reflexivity.
  - vm_compute in He. discriminate He.
Qed.

(** C8, amended.  Setup fails fast in two cases only.  On a grid whose size
    is not positive it raises the [ValueError] of the grid constructor.  On
    a grid of positive size it raises when the number of vines to seed
    exceeds the number of cells or is negative: the [ValueError] of the
    sampling call, unless the initialiser raised before it (for a zero
    intercropping period or a mean latency duration beyond the range of a
    float).  It checks no rate and no duration and clamps nothing: on a
    grid of positive size with a non-zero intercropping period, a mean
    latency duration within the range of a float and a number of vines to
    seed between 0 and the number of cells, it goes through for every
    recovery rate, removal threshold, offset and mean latency duration,
    negative ones included, and the vine of index [i] holds the value that
    the call of [random.gauss] after [i] earlier ones returned, unchanged. *)
Theorem setup_validation cfg rnd :
  (p_size cfg <= 0 -> sim_setup cfg rnd = Raise ValueError) /\
  (0 < p_size cfg ->
   p_size cfg ^ 2 < p_initial_infection_count cfg
   \/ p_initial_infection_count cfg < 0 ->
   exists e,
     sim_setup cfg rnd = Raise e /\
     (intercropping_distance cfg + intercropping_row_count cfg <> 0 ->
      overflows (default_latency_duration cfg) = false ->
      e = ValueError)) /\
  (0 < p_size cfg ->
   intercropping_distance cfg + intercropping_row_count cfg <> 0 ->
   overflows (default_latency_duration cfg) = false ->
   0 <= p_initial_infection_count cfg <= p_size cfg ^ 2 ->
   exists w,
     sim_setup cfg rnd = Ok w /\
     length (agents w) = Z.to_nat (p_size cfg ^ 2) /\
     forall i vine, agents w !! i = Some vine ->
       random_gauss (default_latency_duration cfg) (2 # 1)
         (Nat.iter i tick_normal rnd)
       = Ok (latency_duration vine, Nat.iter (S i) tick_normal rnd)).
Proof.
  split; [|split].
  - intros Hsize. unfold sim_setup.
    rewrite (setup_not_positive cfg rnd Hsize). reflexivity.
  - intros Hsize Hk. unfold sim_setup, setup. cbn zeta.
    rewrite (proj2 (Z.leb_gt _ _) Hsize).
    unfold set_up_agent_variable_attributes, bind.
    destruct (set_up_loop cfg (seq 0 (Z.to_nat (p_size cfg ^ 2))) rnd)
      as [[vines0 r0] | e] eqn:Hloop.
    + exists ValueError. split; [|reflexivity].
      unfold AgentList_random. rewrite length_seq.
      assert ((p_initial_infection_count cfg =? 1) = false) as ->
        by (apply Z.eqb_neq; nia).
      assert ((p_initial_infection_count cfg <? 0)
              || (Z.of_nat (Z.to_nat (p_size cfg ^ 2))
                  <? p_initial_infection_count cfg) = true) as ->.
      { apply orb_true_iff. destruct Hk as [Hk | Hk].
        - right. apply Z.ltb_lt. nia.
        - left. apply Z.ltb_lt. exact Hk. }
      reflexivity.
    + exists e. split; [reflexivity|]. intros Hperiod Hfit.
      apply set_up_loop_raise_inv in Hloop as [[_ Hz] | [_ Ho]];
        [contradiction | congruence].
  - intros Hsize Hperiod Hfit Hk.
    destruct (setup_total cfg rnd Hsize Hperiod Hfit Hk)
      as (vines & r' & Hs).
    assert (sim_setup cfg rnd
            = Ok (mkSimulation 0 (negb (p_steps cfg <=? 0)) vines 0 r'))
      as Hsim by (unfold sim_setup; rewrite Hs; reflexivity).
    eexists. split; [exact Hsim|].
    apply sim_setup_lookup in Hsim
      as (_ & _ & _ & _ & Hlen & sel & _ & Hall).
    split; [exact Hlen|].
    intros i vine Hi. destruct (Hall i vine Hi) as (vine0 & -> & ->).
    rewrite random_gauss_eq, Hfit.
    destruct (iter_tick_normal i rnd) as [-> ->].
    destruct (bool_decide _); reflexivity.
Qed.

Lemma setup_validation_witness :
  (p_size empty_grid_settings <= 0 /\
   sim_setup empty_grid_settings (constant_draws 0 0) = Raise ValueError) /\
  (0 < p_size crowded_settings /\
   p_size crowded_settings ^ 2 < p_initial_infection_count crowded_settings /\
   sim_setup crowded_settings (constant_draws 0 0) = Raise ValueError) /\
  (0 < p_size negative_rate_settings /\
   intercropping_distance negative_rate_settings
   + intercropping_row_count negative_rate_settings <> 0 /\
   overflows (default_latency_duration negative_rate_settings) = false /\
   0 <= p_initial_infection_count negative_rate_settings
     <= p_size negative_rate_settings ^ 2 /\
   (recovery_rate negative_rate_settings < 0)%Q /\
   (default_latency_duration negative_rate_settings < 0)%Q /\
   exists w, sim_setup negative_rate_settings (constant_draws 0 0) = Ok w).
Proof.
  split; [|split].
  - assert (p_size empty_grid_settings <= 0) as Hsize by discriminate.
    split; [exact Hsize|].
    exact (proj1 (setup_validation empty_grid_settings (constant_draws 0 0))
             Hsize).
  - assert (0 < p_size crowded_settings) as Hsize by reflexivity.
    assert (p_size crowded_settings ^ 2
            < p_initial_infection_count crowded_settings) as Hk
      by reflexivity.
    repeat (split; [assumption|]).
    destruct (proj1 (proj2 (setup_validation crowded_settings
                              (constant_draws 0 0))) Hsize (or_introl Hk))
      as (e & He & Hval).
    rewrite He. f_equal. apply Hval; [discriminate | reflexivity].
  - assert (0 < p_size negative_rate_settings) as Hsize by reflexivity.
    assert (intercropping_distance negative_rate_settings
            + intercropping_row_count negative_rate_settings <> 0)
      as Hperiod by discriminate.
    assert (overflows (default_latency_duration negative_rate_settings)
            = false) as Hfit by reflexivity.
    assert (0 <= p_initial_infection_count negative_rate_settings
            <= p_size negative_rate_settings ^ 2) as Hk
      by (split; discriminate).
    repeat (split; [assumption || reflexivity|]).
    destruct (proj2 (proj2 (setup_validation negative_rate_settings
                              (constant_draws 0 0))) Hsize Hperiod Hfit Hk)
      as (w & Hw & _).
    exists w. exact Hw.
Defined.

(** ** Seeding *)

(** C9. Setup is the initialiser followed by seeding, and seeding changes
    nothing but the [state] of the sampled vines: a sampled vine keeps the
    initial state, infectivity offset, latency duration and latency counter
    the initialiser gave it and has [state] Latent; every other vine is
    exactly as the initialiser left it.  The sample has
    [initial_infection_count] pairwise distinct members. *)
Theorem seeding_frame cfg r vines r' :
  setup cfg r = Ok (vines, r') ->
  exists vines0 r0 initial_infected,
    set_up_agent_variable_attributes cfg (Z.to_nat (p_size cfg ^ 2)) r
    = Ok (vines0, r0) /\
    AgentList_random (p_initial_infection_count cfg)
      (seq 0 (Z.to_nat (p_size cfg ^ 2))) r0 = Ok (initial_infected, r') /\
    Z.of_nat (length initial_infected) = p_initial_infection_count cfg /\
    NoDup initial_infected /\
    length vines = length vines0 /\
    forall i vine0, vines0 !! i = Some vine0 ->
      (i ∈ initial_infected ->
       exists vine,
         vines !! i = Some vine /\
         state vine = LATENT /\
         initial_state vine = initial_state vine0 /\
         infectivity_offset vine = infectivity_offset vine0 /\
         latency_duration vine = latency_duration vine0 /\
         latency_counter vine = latency_counter vine0 /\
         state_next vine = state_next vine0) /\
      (i ∉ initial_infected -> vines !! i = Some vine0).
Proof.
  intros Hs.
  apply setup_inv in Hs as (vines0 & r0 & sel & Hinit & Hsel & ->).
  exists vines0, r0, sel.
  pose proof (AgentList_random_spec _ _ _ _ _ Hsel)
    as (_ & Hlen & _ & Hnd & _).
  split; [exact Hinit|]. split; [exact Hsel|]. split; [exact Hlen|].
  split; [apply Hnd, NoDup_seq|]. split; [apply seed_length|].
  intros i vine0 Hi. rewrite seed_lookup, Hi. split.
  - intros Hin. rewrite bool_decide_eq_true_2 by exact Hin.
    eexists. split; [reflexivity|]. repeat split.
  - intros Hnin. rewrite bool_decide_eq_false_2 by exact Hnin. reflexivity.
Qed.

Lemma seeding_frame_witness :
  setup small_grid_settings lone_vine_draws
  = Ok (agents small_grid_world, random small_grid_world) /\
  exists (vines0 : list Agent) (initial_infected : list nat),
    length initial_infected = 1%nat /\
    length vines0 = 4%nat /\
    length (agents small_grid_world) = length vines0.
Proof.
  assert (setup small_grid_settings lone_vine_draws
          = Ok (agents small_grid_world, random small_grid_world)) as Hs
    by (vm_compute; reflexivity).
  split; [exact Hs|].
  destruct (seeding_frame _ _ _ _ Hs)
    as (vines0 & r0 & sel & _ & _ & Hk & _ & Hlen & _).
  exists vines0, sel. split; [cbn in Hk; lia|].
  split; [rewrite <- Hlen; vm_compute; reflexivity | exact Hlen].
Defined.

(** * Further properties of the model *)

(** ** Outcome of one update, case by case *)

Lemma update_agent_outcome cfg generation vine nb r vine' r' :
  update_agent cfg generation vine nb r = Ok (vine', r') ->
  (healthy (state vine) /\
   exists fired : bool,
     vine' = set_state_next (if fired then LATENT else state vine) vine /\
     r' = tick_uniform r)
  \/ (state vine = LATENT /\
      vine' = set_state_next
                (if l_2_i (set_latency_counter (latency_counter vine + 1) vine)
                      nb
                 then INFECTED else LATENT)
                (set_latency_counter (latency_counter vine + 1) vine) /\
      r' = r)
  \/ (state vine = INFECTED /\
      Qle_bool (next_uniform r) (recovery_rate cfg) = true /\
      vine' = set_infectivity_offset (resistant_infectivity_offset cfg)
                (set_initial_state RECOVERED
                   (set_state_next RECOVERED (set_latency_counter 0 vine))) /\
      r' = tick_uniform r)
  \/ (state vine = INFECTED /\
      Qle_bool (next_uniform r) (recovery_rate cfg) = false /\
      vine' = set_state_next
                (if (0 <? generation)
                    && (generation mod removal_threshold cfg =? 0)
                 then initial_state vine else INFECTED)
                (set_latency_counter 0 vine) /\
      r' = tick_uniform r).
Proof.
  destruct (state vine) eqn:Hs.
  - rewrite update_agent_healthy, s_2_l_eq by auto. cbn zeta.
    destruct (_ =? 0); [discriminate|].
    destruct (overflows _); [discriminate|]. intros [= <- <-].
    left. split; [left; reflexivity|]. eexists. rewrite Hs.
    split; reflexivity.
  - rewrite update_agent_latent by auto. intros [= <- <-].
    right. left. auto.
  - rewrite update_agent_infected by auto. cbn zeta.
    rewrite manual_removal_eq.
    destruct (Qle_bool _ _) eqn:Hrec.
    + intros [= <- <-]. right. right. left. auto.
    + destruct (0 <? generation);
        [destruct (removal_threshold cfg =? 0); [discriminate|]|];
        intros [= <- <-]; right; right; right; cbn; auto.
  - rewrite update_agent_healthy, s_2_l_eq by auto. cbn zeta.
    destruct (_ =? 0); [discriminate|].
    destruct (overflows _); [discriminate|]. intros [= <- <-].
    left. split; [right; reflexivity|]. eexists. rewrite Hs.
    split; reflexivity.
Qed.

(** The healthy compartment a vine reverts to is Susceptible or Recovered,
    and its offset is one of the two cultivar offsets, throughout a run. *)
Lemma reachable_cultivar cfg w :
  reachable cfg w ->
  forall i vine, agents w !! i = Some vine ->
    healthy (initial_state vine) /\
    (infectivity_offset vine = default_infectivity_offset cfg
     \/ infectivity_offset vine = resistant_infectivity_offset cfg).
Proof.
  induction 1 as [rnd w Hs | w w' _ IH _ Hs]; intros i vine Hi.
  - apply sim_setup_lookup in Hs as (_ & _ & _ & _ & _ & sel & _ & Hall).
    destruct (Hall i vine Hi) as (vine0 & -> & ->).
    unfold healthy, new_agent.
    destruct (bool_decide _), (_ <=? _); cbn; auto.
  - apply sim_step_lookup in Hs as (_ & _ & Hlen & _ & _ & Hall).
    destruct (lookup_lt_is_Some_2 (agents w) i) as [v Hv].
    { rewrite <- Hlen. eapply lookup_lt_Some, Hi. }
    destruct (Hall i v Hv) as (ri & v' & ri' & s & _ & Hu & _ & Hi').
    rewrite Hi in Hi'. injection Hi' as ->.
    destruct (IH i v Hv) as [Hini Hoff].
    apply update_agent_outcome in Hu
      as [(_ & fired & -> & _) | [(_ & -> & _) | [(_ & _ & -> & _)
         | (_ & _ & -> & _)]]]; cbn; auto.
    split; [right; reflexivity | right; reflexivity].
Qed.

(** ** The state machine along a run *)

(** X1. In one generation a vine moves only along the edges of the state
    machine: Susceptible stays or turns Latent, Recovered stays or turns
    Latent, Latent stays or turns Infected, Infected stays or returns to a
    healthy compartment.  No vine goes from healthy to Infected directly,
    and no Latent vine goes back to healthy. *)
Theorem transition_edges cfg w w' i vine :
  reachable cfg w -> sim_step cfg w = Ok w' ->
  agents w !! i = Some vine ->
  exists vine',
    agents w' !! i = Some vine' /\
    (state vine = SUSCEPTIBLE ->
     state vine' = SUSCEPTIBLE \/ state vine' = LATENT) /\
    (state vine = RECOVERED ->
     state vine' = RECOVERED \/ state vine' = LATENT) /\
    (state vine = LATENT ->
     state vine' = LATENT \/ state vine' = INFECTED) /\
    (state vine = INFECTED ->
     state vine' = INFECTED \/ healthy (state vine')).
Proof.
  intros Hw Hs Hi.
  destruct (reachable_cultivar _ _ Hw i vine Hi) as [Hini _].
  apply sim_step_lookup in Hs as (_ & _ & _ & _ & _ & Hall).
  destruct (Hall i vine Hi) as (ri & v' & ri' & s & _ & Hu & Hs' & Hi').
  exists (set_state s v'). split; [exact Hi'|]. cbn.
  apply update_agent_outcome in Hu
    as [(Hh & fired & -> & _) | [(Hl & -> & _) | [(Hinf & _ & -> & _)
       | (Hinf & _ & -> & _)]]]; cbn in Hs'; injection Hs' as <-.
  - destruct Hh as [Hh | Hh]; rewrite Hh; destruct fired;
      repeat split; intros; try discriminate; auto.
  - rewrite Hl. destruct (l_2_i _ _);
      repeat split; intros; try discriminate; auto.
  - rewrite Hinf. repeat split; intros; try discriminate.
    right. right. reflexivity.
  - rewrite Hinf. repeat split; intros; try discriminate.
    destruct (_ && _); [right; exact Hini | left; reflexivity].
Qed.

Lemma transition_edges_witness :
  reachable lone_vine_settings lone_vine_world /\
  sim_step lone_vine_settings lone_vine_world = Ok lone_vine_world_1 /\
  agents lone_vine_world !! 0%nat = Some (default_vine LATENT 0) /\
  exists vine',
    agents lone_vine_world_1 !! 0%nat = Some vine' /\
    (state vine' = LATENT \/ state vine' = INFECTED).
Proof.
  assert (reachable lone_vine_settings lone_vine_world) as Hreach.
  { apply reachable_setup with lone_vine_draws. vm_compute; reflexivity. }
  assert (sim_step lone_vine_settings lone_vine_world
          = Ok lone_vine_world_1) as Hstep by (vm_compute; reflexivity).
  assert (agents lone_vine_world !! 0%nat = Some (default_vine LATENT 0))
    as Hvine by (vm_compute; reflexivity).
  repeat (split; [assumption|]).
  destruct (transition_edges _ _ _ _ _ Hreach Hstep Hvine)
    as (vine' & Hv & _ & _ & Hlat & _).
  exists vine'. split; [exact Hv|]. apply Hlat. reflexivity.
Defined.

Lemma reachable_length cfg w :
  reachable cfg w -> length (agents w) = Z.to_nat (p_size cfg ^ 2).
Proof.
  induction 1 as [rnd w Hs | w w' _ IH _ Hs].
  - apply sim_setup_lookup in Hs as (_ & _ & _ & _ & Hlen & _). exact Hlen.
  - apply sim_step_lookup in Hs as (_ & _ & Hlen & _). congruence.
Qed.

Lemma reachable_state_next cfg w :
  reachable cfg w ->
  forall i vine, agents w !! i = Some vine ->
    state_next vine = (if t w =? 0 then None else Some (state vine)).
Proof.
  intros Hw. destruct Hw as [rnd w Hs | w w' Hw _ Hs]; intros i vine Hi.
  - apply sim_setup_lookup in Hs as (-> & _ & _ & _ & _ & sel & _ & Hall).
    destruct (Hall i vine Hi) as (vine0 & -> & ->).
    destruct (bool_decide _); reflexivity.
  - apply reachable_generation in Hw as [_ Ht].
    apply sim_step_lookup in Hs as (Ht' & _ & Hlen & _ & _ & Hall).
    destruct (lookup_lt_is_Some_2 (agents w) i) as [v Hv].
    { rewrite <- Hlen. eapply lookup_lt_Some, Hi. }
    destruct (Hall i v Hv) as (ri & v' & ri' & s & _ & _ & Hs' & Hi').
    rewrite Hi in Hi'. injection Hi' as ->. cbn.
    rewrite (proj2 (Z.eqb_neq _ _)) by lia. exact Hs'.
Qed.

(** X2. Invariants of a run.  The vineyard always holds [size^2] vines;
    every vine's [initial_state] is Susceptible or Recovered and its offset
    is one of the two cultivar offsets; its latency counter is never
    negative; and between two steps [state_next] is absent before the first
    step and equal to [state] afterwards. *)
Theorem run_invariants cfg w :
  reachable cfg w ->
  length (agents w) = Z.to_nat (p_size cfg ^ 2) /\
  forall i vine, agents w !! i = Some vine ->
    healthy (initial_state vine) /\
    (infectivity_offset vine = default_infectivity_offset cfg
     \/ infectivity_offset vine = resistant_infectivity_offset cfg) /\
    0 <= latency_counter vine /\
    state_next vine = (if t w =? 0 then None else Some (state vine)).
Proof.
  intros Hw. split; [apply reachable_length, Hw|].
  intros i vine Hi.
  destruct (reachable_cultivar _ _ Hw i vine Hi) as [Hini Hoff].
  split; [exact Hini|]. split; [exact Hoff|].
  split; [eapply reachable_counter_nonneg; eassumption|].
  eapply reachable_state_next; eassumption.
Qed.

Lemma run_invariants_witness :
  reachable lone_vine_settings lone_vine_world_10 /\
  length (agents lone_vine_world_10) = 1%nat /\
  forall i vine, agents lone_vine_world_10 !! i = Some vine ->
    state_next vine = Some (state vine).
Proof.
  assert (reachable lone_vine_settings lone_vine_world_10) as Hreach.
  { apply reachable_run_loop with 10%nat lone_vine_world.
    - apply reachable_setup with lone_vine_draws. vm_compute; reflexivity.
    - vm_compute; reflexivity. }
  split; [exact Hreach|].
  destruct (run_invariants _ _ Hreach) as [Hlen Hall].
  split; [exact Hlen|].
  intros i vine Hi. destruct (Hall i vine Hi) as (_ & _ & _ & Hnext).
  exact Hnext.
Defined.

(** X13. At a removal generation (the counter read by the step is a
    positive multiple of [removal_threshold]) the treatment reaches the whole
    vineyard: every vine that was Infected before the step is healthy after
    it, with latency counter 0, and every vine that is Infected after the
    step was Latent before it. *)
Theorem removal_generation_clears_infected cfg w w' :
  reachable cfg w -> sim_step cfg w = Ok w' ->
  0 < model_generation w ->
  (removal_threshold cfg | model_generation w) ->
  (forall i vine, agents w !! i = Some vine -> state vine = INFECTED ->
     exists vine',
       agents w' !! i = Some vine' /\
       healthy (state vine') /\ latency_counter vine' = 0) /\
  (forall i vine', agents w' !! i = Some vine' -> state vine' = INFECTED ->
     exists vine, agents w !! i = Some vine /\ state vine = LATENT).
Proof.
  intros Hw Hs Hpos Hdiv.
  assert (removal_threshold cfg <> 0) as Hthr.
  { intros H0. rewrite H0 in Hdiv. destruct Hdiv as [k Hk]. lia. }
  assert ((0 <? model_generation w)
          && (model_generation w mod removal_threshold cfg =? 0) = true)
    as Hfire.
  { apply andb_true_iff. split; [apply Z.ltb_lt, Hpos|].
    apply Z.eqb_eq, Z.mod_divide; assumption. }
  apply sim_step_lookup in Hs as (_ & _ & Hlen & _ & _ & Hall).
  split.
  - intros i vine Hi Hinf.
    destruct (reachable_cultivar _ _ Hw i vine Hi) as [Hini _].
    destruct (Hall i vine Hi) as (ri & v' & ri' & s & _ & Hu & Hs' & Hi').
    exists (set_state s v'). split; [exact Hi'|]. cbn.
    apply update_agent_outcome in Hu
      as [([Hh | Hh] & _) | [(Hl & _) | [(_ & _ & -> & _)
         | (_ & _ & -> & _)]]]; try congruence;
      cbn in Hs'; injection Hs' as <-.
    + split; [right; reflexivity | reflexivity].
    + rewrite Hfire. split; [exact Hini | reflexivity].
  - intros i vine' Hi' Hinf'.
    destruct (lookup_lt_is_Some_2 (agents w) i) as [v Hv].
    { rewrite <- Hlen. eapply lookup_lt_Some, Hi'. }
    exists v. split; [exact Hv|].
    destruct (reachable_cultivar _ _ Hw i v Hv) as [Hini _].
    destruct (Hall i v Hv) as (ri & v' & ri' & s & _ & Hu & Hs' & Hi2).
    rewrite Hi' in Hi2. injection Hi2 as ->. cbn in Hinf'. subst s.
    apply update_agent_outcome in Hu
      as [(Hh & fired & -> & _) | [(Hl & _) | [(_ & _ & -> & _)
         | (_ & _ & -> & _)]]]; [| exact Hl | |]; cbn in Hs'.
    + destruct Hh as [Hh | Hh]; rewrite Hh in Hs'; destruct fired;
        discriminate Hs'.
    + discriminate Hs'.
    + rewrite Hfire in Hs'. injection Hs' as Hs'.
      destruct Hini as [Hini | Hini]; congruence.
Qed.

Lemma removal_generation_clears_infected_witness :
  reachable lone_vine_settings lone_vine_world_10 /\
  sim_step lone_vine_settings lone_vine_world_10 = Ok lone_vine_world_11 /\
  model_generation lone_vine_world_10 = 10 /\
  List.map state (agents lone_vine_world_10) = [INFECTED] /\
  exists vine',
    agents lone_vine_world_11 !! 0%nat = Some vine' /\
    healthy (state vine').
Proof.
  assert (reachable lone_vine_settings lone_vine_world_10) as Hreach.
  { apply reachable_run_loop with 10%nat lone_vine_world.
    - apply reachable_setup with lone_vine_draws. vm_compute; reflexivity.
    - vm_compute; reflexivity. }
  assert (sim_step lone_vine_settings lone_vine_world_10
          = Ok lone_vine_world_11) as Hstep by (vm_compute; reflexivity).
  split; [exact Hreach|]. split; [exact Hstep|].
  split; [vm_compute; reflexivity|]. split; [vm_compute; reflexivity|].
  destruct (removal_generation_clears_infected _ _ _ Hreach Hstep)
    as [Hclear _].
  - vm_compute. reflexivity.
  - exists 1. vm_compute. reflexivity.
  - destruct (Hclear 0%nat
                (mkAgent INFECTED (Some INFECTED) SUSCEPTIBLE 10 0 (8 # 1)))
      as (vine' & Hv & Hh & _); [vm_compute; reflexivity | reflexivity |].
    exists vine'. split; assumption.
Defined.

(** ** Cultivar attributes along a run *)

Lemma sim_step_cultivar cfg w w' i vine :
  sim_step cfg w = Ok w' -> agents w !! i = Some vine ->
  exists vine',
    agents w' !! i = Some vine' /\
    latency_duration vine' = latency_duration vine /\
    ((initial_state vine' = initial_state vine /\
      infectivity_offset vine' = infectivity_offset vine)
     \/ (initial_state vine' = RECOVERED /\
         infectivity_offset vine' = resistant_infectivity_offset cfg)).
Proof.
  intros Hs Hi.
  apply sim_step_lookup in Hs as (_ & _ & _ & _ & _ & Hall).
  destruct (Hall i vine Hi) as (ri & v' & ri' & s & _ & Hu & _ & Hi').
  exists (set_state s v'). split; [exact Hi'|]. cbn.
  apply update_agent_outcome in Hu
    as [(_ & fired & -> & _) | [(_ & -> & _) | [(_ & _ & -> & _)
       | (_ & _ & -> & _)]]]; cbn; auto.
Qed.

(** X3. However long the run goes on, a vine keeps the latency duration it
    drew at setup, and its [initial_state] and [infectivity_offset] are
    either the ones it had or the resistant ones ([Recovered] and the
    resistant offset) gained by self-recovery: the gain is never undone. *)
Theorem cultivar_upgrade_is_permanent cfg fuel w w' i vine :
  run_loop cfg fuel w = Ok w' -> agents w !! i = Some vine ->
  exists vine',
    agents w' !! i = Some vine' /\
    latency_duration vine' = latency_duration vine /\
    ((initial_state vine' = initial_state vine /\
      infectivity_offset vine' = infectivity_offset vine)
     \/ (initial_state vine' = RECOVERED /\
         infectivity_offset vine' = resistant_infectivity_offset cfg)).
Proof.
  revert w vine. induction fuel as [|fuel IH]; intros w vine; cbn.
  - intros [= <-] Hi. exists vine. auto.
  - destruct (running w); [|intros [= <-] Hi; exists vine; auto].
    destruct (sim_step cfg w) as [w1 | e] eqn:Hs; [|discriminate].
    intros Hrun Hi.
    destruct (sim_step_cultivar _ _ _ _ _ Hs Hi) as (v1 & Hv1 & Hd1 & Hc1).
    destruct (IH _ _ Hrun Hv1) as (v' & Hv' & Hd' & Hc').
    exists v'. split; [exact Hv'|]. split; [congruence|].
    destruct Hc' as [[Hi' Ho'] | Hup]; [|right; exact Hup].
    destruct Hc1 as [[Hi1 Ho1] | [Hi1 Ho1]]; [left | right];
      split; congruence.
Qed.

Lemma cultivar_upgrade_is_permanent_witness :
  run_loop lone_vine_settings 20 recovering_world = Ok recovering_world_end /\
  agents recovering_world !! 0%nat = Some (default_vine LATENT 0) /\
  List.map initial_state (agents recovering_world_end) = [RECOVERED] /\
  exists vine',
    agents recovering_world_end !! 0%nat = Some vine' /\
    latency_duration vine' = 8 # 1.
Proof.
  assert (run_loop lone_vine_settings 20 recovering_world
          = Ok recovering_world_end) as Hrun by (vm_compute; reflexivity).
  assert (agents recovering_world !! 0%nat = Some (default_vine LATENT 0))
    as Hvine by (vm_compute; reflexivity).
  split; [exact Hrun|]. split; [exact Hvine|].
  split; [vm_compute; reflexivity|].
  destruct (cultivar_upgrade_is_permanent _ _ _ _ _ _ Hrun Hvine)
    as (vine' & Hv & Hd & _).
  exists vine'. split; [exact Hv | exact Hd].
Defined.

(** ** Runs as a whole *)

Lemma reachable_sim_step_total cfg w :
  0 < default_infectivity_offset cfg ->
  0 < resistant_infectivity_offset cfg ->
  0 <= default_infectivity cfg ->
  removal_threshold cfg <> 0 ->
  reachable cfg w ->
  exists w', sim_step cfg w = Ok w'.
Proof.
  intros Hdef Hres Hinf Hthr Hw. unfold sim_step.
  destruct (step_total cfg (mkSimulation (t w + 1) (running w) (agents w)
                              (model_generation w) (random w)) Hinf Hthr)
    as [w1 ->]; [|eauto].
  cbn. apply Forall_lookup. intros i vine Hi.
  destruct (reachable_cultivar _ _ Hw i vine Hi) as [_ [-> | ->]];
    assumption.
Qed.

(** X4. On a grid of positive size, with a non-zero intercropping period,
    a mean latency duration within the range of a float, a seed count
    between 0 and the number of cells, positive cultivar offsets, a
    non-negative base infectivity and a non-zero removal threshold, the
    whole run -- setup and every step up to the stop -- returns normally:
    no refused grid or sample, no division by zero, no overflow and no
    missing [state_next]. *)
Theorem valid_run_never_raises cfg rnd :
  0 < p_size cfg ->
  intercropping_distance cfg + intercropping_row_count cfg <> 0 ->
  overflows (default_latency_duration cfg) = false ->
  0 <= p_initial_infection_count cfg <= p_size cfg ^ 2 ->
  0 < default_infectivity_offset cfg ->
  0 < resistant_infectivity_offset cfg ->
  0 <= default_infectivity cfg ->
  removal_threshold cfg <> 0 ->
  exists w, run cfg rnd = Ok w /\ reachable cfg w.
Proof.
  intros Hsize Hperiod Hfit Hk Hdef Hres Hinf Hthr. unfold run.
  destruct (setup_total cfg rnd Hsize Hperiod Hfit Hk) as (vines & r' & Hs).
  assert (sim_setup cfg rnd
          = Ok (mkSimulation 0 (negb (p_steps cfg <=? 0)) vines 0 r'))
    as Hsim by (unfold sim_setup; rewrite Hs; reflexivity).
  rewrite Hsim.
  assert (reachable cfg (mkSimulation 0 (negb (p_steps cfg <=? 0)) vines 0 r'))
    as Hw by (eapply reachable_setup; exact Hsim).
  revert Hw. generalize (mkSimulation 0 (negb (p_steps cfg <=? 0)) vines 0 r').
  induction (Z.to_nat (p_steps cfg)) as [|fuel IH]; intros w Hw; cbn.
  - eauto.
  - destruct (running w) eqn:Hrun; [|eauto].
    destruct (reachable_sim_step_total cfg w Hdef Hres Hinf Hthr Hw)
      as [w1 Hstep].
    rewrite Hstep. apply IH. eapply reachable_step; eassumption.
Qed.

Lemma valid_run_never_raises_witness :
  0 < p_size small_grid_settings /\
  intercropping_distance small_grid_settings
  + intercropping_row_count small_grid_settings <> 0 /\
  overflows (default_latency_duration small_grid_settings) = false /\
  0 <= p_initial_infection_count small_grid_settings
    <= p_size small_grid_settings ^ 2 /\
  0 < default_infectivity_offset small_grid_settings /\
  0 < resistant_infectivity_offset small_grid_settings /\
  0 <= default_infectivity small_grid_settings /\
  removal_threshold small_grid_settings <> 0 /\
  exists w, run small_grid_settings lone_vine_draws = Ok w.
Proof.
  assert (0 < p_size small_grid_settings) as H0 by reflexivity.
  assert (intercropping_distance small_grid_settings
          + intercropping_row_count small_grid_settings <> 0) as H1
    by discriminate.
  assert (overflows (default_latency_duration small_grid_settings) = false)
    as Hfit by reflexivity.
  assert (0 <= p_initial_infection_count small_grid_settings
          <= p_size small_grid_settings ^ 2) as H2
    by (split; discriminate).
  assert (0 < default_infectivity_offset small_grid_settings) as H3
    by reflexivity.
  assert (0 < resistant_infectivity_offset small_grid_settings) as H4
    by reflexivity.
  assert (0 <= default_infectivity small_grid_settings) as H5
    by discriminate.
  assert (removal_threshold small_grid_settings <> 0) as H6 by discriminate.
  repeat (split; [assumption|]).
  destruct (valid_run_never_raises small_grid_settings lone_vine_draws
              H0 H1 Hfit H2 H3 H4 H5 H6) as (w & Hw & _).
  exists w. exact Hw.
Defined.

Lemma reachable_running cfg w :
  reachable cfg w ->
  0 <= t w <= Z.max 0 (p_steps cfg) /\
  (running w = true -> t w < p_steps cfg) /\
  (running w = false ->
   p_steps cfg <= t w
   \/ count_state LATENT (agents w) + count_state INFECTED (agents w) = 0).
Proof.
  induction 1 as [rnd w Hs | w w' _ (IHt & IHrun & _) Hrun Hs].
  - unfold sim_setup in Hs.
    destruct (setup cfg rnd) as [[vines r'] | e]; [|discriminate].
    injection Hs as <-. cbn.
    destruct (Z.leb_spec (p_steps cfg) 0); cbn;
      (split; [lia|]); (split; [intros; try discriminate; lia|]);
      intros; try discriminate; auto.
  - specialize (IHrun Hrun).
    apply sim_step_lookup in Hs as (Ht & _ & _ & _ & Hrun' & _).
    rewrite Ht, Hrun', Hrun.
    split; [lia|].
    destruct (Z.leb_spec (p_steps cfg) (t w + 1)).
    + split; [discriminate | auto].
    + destruct (Z.eqb_spec
                  (count_state LATENT (agents w')
                   + count_state INFECTED (agents w')) 0).
      * split; [discriminate | auto].
      * split; [lia | discriminate].
Qed.

Lemma run_loop_stops cfg fuel :
  forall w w',
    reachable cfg w ->
    p_steps cfg - t w <= Z.of_nat fuel ->
    run_loop cfg fuel w = Ok w' ->
    running w' = false.
Proof.
  induction fuel as [|fuel IH]; intros w w' Hw Hfuel; cbn.
  - intros [= <-]. destruct (running w) eqn:Hrun; [|reflexivity].
    apply reachable_running in Hw as (_ & Hlt & _). specialize (Hlt Hrun).
    lia.
  - destruct (running w) eqn:Hrun; [|intros [= <-]; exact Hrun].
    destruct (sim_step cfg w) as [w1 | e] eqn:Hs; [|discriminate].
    apply IH; [eapply reachable_step; eassumption|].
    apply sim_step_lookup in Hs as (-> & _). lia.
Qed.

(** X5. A run that returns has stopped: it took at most [steps] steps, and if
    it took fewer than [steps] it stopped because no Latent and no Infected
    vine was left. *)
Theorem run_terminates cfg rnd w :
  run cfg rnd = Ok w ->
  running w = false /\
  0 <= t w <= Z.max 0 (p_steps cfg) /\
  (t w < p_steps cfg ->
   count_state LATENT (agents w) + count_state INFECTED (agents w) = 0).
Proof.
  unfold run. destruct (sim_setup cfg rnd) as [w0 | e] eqn:Hs; [|discriminate].
  intros Hrun.
  assert (reachable cfg w0) as Hw0 by (eapply reachable_setup; exact Hs).
  assert (reachable cfg w) as Hw by (eapply reachable_run_loop; eassumption).
  assert (running w = false) as Hstop.
  { eapply run_loop_stops; [exact Hw0 | | exact Hrun].
    apply sim_setup_lookup in Hs as (-> & _). lia. }
  apply reachable_running in Hw as (Ht & _ & Hwhy).
  split; [exact Hstop|]. split; [exact Ht|].
  intros Hlt. destruct (Hwhy Hstop) as [Hge | Hnone]; [lia | exact Hnone].
Qed.

Lemma run_terminates_witness :
  run lone_vine_settings (constant_draws 0 0) = Ok recovering_world_end /\
  t recovering_world_end = 9 /\
  running recovering_world_end = false /\
  count_state LATENT (agents recovering_world_end)
  + count_state INFECTED (agents recovering_world_end) = 0.
Proof.
  assert (run lone_vine_settings (constant_draws 0 0)
          = Ok recovering_world_end) as Hrun by (vm_compute; reflexivity).
  split; [exact Hrun|]. split; [vm_compute; reflexivity|].
  destruct (run_terminates _ _ _ Hrun) as (Hstop & _ & Hnone).
  split; [exact Hstop|]. apply Hnone. vm_compute. reflexivity.
Defined.

(** ** The infection rule *)

(** X6. The infection test is monotone: with the same draw, if [s_2_l] fires
    for a vine it also fires for any vine with a smaller (positive) offset
    and at least as many Infected neighbours.  More Infected neighbours never
    protect, and a resistant offset never exposes. *)
Theorem s_2_l_monotone cfg vine1 vine2 nb1 nb2 r :
  0 <= default_infectivity cfg ->
  0 < infectivity_offset vine1 <= infectivity_offset vine2 ->
  infected_count nb2 <= infected_count nb1 ->
  s_2_l cfg vine2 nb2 r = Ok (true, tick_uniform r) ->
  s_2_l cfg vine1 nb1 r = Ok (true, tick_uniform r).
Proof.
  intros Hd Ho Hc. rewrite !s_2_l_eq. cbn zeta.
  pose proof (infected_count_nonneg nb1) as H1.
  pose proof (infected_count_nonneg nb2) as H2.
  assert (0 <= default_infectivity cfg * infected_count nb2
          <= default_infectivity cfg * infected_count nb1) as Ha by nia.
  revert Ha.
  generalize (default_infectivity cfg * infected_count nb1) as a1.
  generalize (default_infectivity cfg * infected_count nb2) as a2.
  intros a2 a1 Ha.
  destruct (Z.eqb_spec (a2 + infectivity_offset vine2) 0) as [|_];
    [discriminate|].
  destruct (Z.eqb_spec (a1 + infectivity_offset vine1) 0) as [Hz|_]; [lia|].
  rewrite (overflows_unit a1 (a1 + infectivity_offset vine1)) by lia.
  destruct (overflows _); [discriminate|].
  intros [= Hfire]. f_equal. f_equal.
  apply Qle_bool_iff. apply Qle_bool_iff in Hfire.
  eapply Qle_trans; [exact Hfire|].
  apply Qle_div_inject_Z; nia.
Qed.

Lemma s_2_l_monotone_witness :
  0 <= default_infectivity default_settings /\
  0 < infectivity_offset (default_vine SUSCEPTIBLE 0)
    <= infectivity_offset (resistant_vine RECOVERED 0) /\
  infected_count [default_vine INFECTED 0]
  <= infected_count [default_vine INFECTED 0; default_vine INFECTED 0] /\
  s_2_l default_settings (resistant_vine RECOVERED 0)
    [default_vine INFECTED 0] small_draws
  = Ok (true, tick_uniform small_draws) /\
  s_2_l default_settings (default_vine SUSCEPTIBLE 0)
    [default_vine INFECTED 0; default_vine INFECTED 0] small_draws
  = Ok (true, tick_uniform small_draws).
Proof.
  assert (0 <= default_infectivity default_settings) as H1 by discriminate.
  assert (0 < infectivity_offset (default_vine SUSCEPTIBLE 0)
          <= infectivity_offset (resistant_vine RECOVERED 0)) as H2
    by (split; [reflexivity | discriminate]).
  assert (infected_count [default_vine INFECTED 0]
          <= infected_count [default_vine INFECTED 0; default_vine INFECTED 0])
    as H3 by discriminate.
  assert (s_2_l default_settings (resistant_vine RECOVERED 0)
            [default_vine INFECTED 0] small_draws
          = Ok (true, tick_uniform small_draws)) as H4 by reflexivity.
  repeat (split; [assumption|]).
  exact (s_2_l_monotone _ _ _ _ _ _ H1 H2 H3 H4).
Defined.

(** ** The recovery rule *)

Lemma next_uniform_range r : (0 <= next_uniform r)%Q /\ (next_uniform r < 1)%Q.
Proof.
  unfold next_uniform, unit_interval, Qle, Qlt; cbn.
  assert (uniform53 r (uniform_calls r) mod two53 < two53)%N as Hlt
    by (apply N.mod_lt; discriminate).
  revert Hlt. generalize (uniform53 r (uniform_calls r) mod two53)%N as k.
  intros k Hlt. unfold two53 in Hlt. lia.
Qed.

(** X7. The recovery rate at its extremes.  With a rate of at least 1 every
    Infected vine self-recovers in its first generation as Infected.  With a
    negative rate [self_recovery] never fires: an Infected vine keeps its
    [initial_state] and offset, and is staged either for [initial_state] or
    to stay Infected. *)
Theorem recovery_rate_extremes cfg generation vine nb r :
  state vine = INFECTED ->
  ((1 <= recovery_rate cfg)%Q ->
   update_agent cfg generation vine nb r =
     Ok (mkAgent INFECTED (Some RECOVERED) RECOVERED
           (resistant_infectivity_offset cfg) 0 (latency_duration vine),
         tick_uniform r)) /\
  ((recovery_rate cfg < 0)%Q ->
   self_recovery cfg vine nb r = Ok (false, tick_uniform r) /\
   forall vine' r',
     update_agent cfg generation vine nb r = Ok (vine', r') ->
     initial_state vine' = initial_state vine /\
     infectivity_offset vine' = infectivity_offset vine /\
     (state_next vine' = Some INFECTED
      \/ state_next vine' = Some (initial_state vine))).
Proof.
  intros Hs. destruct (next_uniform_range r) as [Hlo Hhi]. split.
  - intros Hrate.
    assert (Qle_bool (next_uniform r) (recovery_rate cfg) = true) as Hfire.
    { apply Qle_bool_iff. eapply Qle_trans; [|exact Hrate].
      apply Qlt_le_weak, Hhi. }
    rewrite update_agent_infected by exact Hs. cbn zeta. rewrite Hfire.
    unfold set_infectivity_offset, set_initial_state, set_state_next,
      set_latency_counter; cbn. rewrite Hs. reflexivity.
  - intros Hrate.
    assert (Qle_bool (next_uniform r) (recovery_rate cfg) = false) as Hno.
    { destruct (Qle_bool _ _) eqn:Hb; [|reflexivity].
      apply Qle_bool_iff in Hb.
      destruct (Qlt_irrefl 0). eapply Qle_lt_trans; [exact Hlo|].
      eapply Qle_lt_trans; [exact Hb | exact Hrate]. }
    split.
    { unfold self_recovery, bind, random_random, ret. rewrite Hno.
      reflexivity. }
    intros vine' r' Hu.
    apply update_agent_outcome in Hu
      as [([Hh | Hh] & _) | [(Hl & _) | [(_ & Hyes & _)
         | (_ & _ & -> & _)]]]; try congruence.
    cbn. destruct (_ && _); auto.
Qed.

Lemma recovery_rate_extremes_witness :
  state (default_vine INFECTED 0) = INFECTED /\
  (1 <= recovery_rate certain_recovery_settings)%Q /\
  (recovery_rate negative_rate_settings < 0)%Q /\
  update_agent certain_recovery_settings 3 (default_vine INFECTED 0) []
    lone_vine_draws
  = Ok (mkAgent INFECTED (Some RECOVERED) RECOVERED 180 0 (8 # 1),
        tick_uniform lone_vine_draws) /\
  self_recovery negative_rate_settings (default_vine INFECTED 0) []
    (constant_draws 0 0)
  = Ok (false, tick_uniform (constant_draws 0 0)).
Proof.
  assert (1 <= recovery_rate certain_recovery_settings)%Q as Hone
    by discriminate.
  assert (recovery_rate negative_rate_settings < 0)%Q as Hneg
    by reflexivity.
  split; [reflexivity|]. split; [exact Hone|]. split; [exact Hneg|].
  split.
  - apply (recovery_rate_extremes certain_recovery_settings 3
             (default_vine INFECTED 0) [] lone_vine_draws eq_refl), Hone.
  - apply (recovery_rate_extremes negative_rate_settings 3
             (default_vine INFECTED 0) [] (constant_draws 0 0) eq_refl),
      Hneg.
Defined.

(** ** Exceptions *)

(** X8. The exceptions of [update_agent].  It raises in exactly three
    situations.  On a healthy vine it raises [ZeroDivisionError] when the
    infectivity of the neighbourhood plus the vine's offset is 0, and
    [OverflowError] when that sum is not 0 and the quotient of the
    infectivity by it lies beyond the range of a float.  On an Infected vine
    that did not self-recover it raises [ZeroDivisionError] when the
    generation counter is positive and [removal_threshold] is 0.  It raises
    nothing else, and a Latent vine never raises. *)
Theorem update_agent_raises cfg generation vine nb r e :
  update_agent cfg generation vine nb r = Raise e <->
  (e = ZeroDivisionError /\
   ((healthy (state vine) /\
     default_infectivity cfg * infected_count nb + infectivity_offset vine
     = 0)
    \/ (state vine = INFECTED /\
        Qle_bool (next_uniform r) (recovery_rate cfg) = false /\
        0 < generation /\ removal_threshold cfg = 0)))
  \/ (e = OverflowError /\
      healthy (state vine) /\
      default_infectivity cfg * infected_count nb + infectivity_offset vine
      <> 0 /\
      overflows
        (inject_Z (default_infectivity cfg * infected_count nb)
         / inject_Z (default_infectivity cfg * infected_count nb
                     + infectivity_offset vine)) = true).
Proof.
  assert (forall s, s = SUSCEPTIBLE \/ s = RECOVERED ->
            state vine = s ->
            update_agent cfg generation vine nb r = Raise e <->
            (e = ZeroDivisionError /\
             ((healthy s /\
               default_infectivity cfg * infected_count nb
               + infectivity_offset vine = 0)
              \/ (s = INFECTED /\
                  Qle_bool (next_uniform r) (recovery_rate cfg) = false /\
                  0 < generation /\ removal_threshold cfg = 0)))
            \/ (e = OverflowError /\
                healthy s /\
                default_infectivity cfg * infected_count nb
                + infectivity_offset vine <> 0 /\
                overflows
                  (inject_Z (default_infectivity cfg * infected_count nb)
                   / inject_Z (default_infectivity cfg * infected_count nb
                               + infectivity_offset vine)) = true))
    as Hhealthy.
  { intros s Hh Hs.
    assert (s <> INFECTED) as Hni by (destruct Hh; subst s; discriminate).
    rewrite update_agent_healthy, s_2_l_eq by (rewrite Hs; exact Hh).
    cbn zeta.
    destruct (Z.eqb_spec (default_infectivity cfg * infected_count nb
                          + infectivity_offset vine) 0) as [Hz | Hnz].
    - split.
      + intros [= <-]. left. unfold healthy. auto.
      + intros [[-> _] | (_ & _ & Hn & _)]; [reflexivity | contradiction].
    - destruct (overflows _) eqn:Hov.
      + split.
        * intros [= <-]. right. unfold healthy. auto.
        * intros [[_ [[_ Hz] | [Hinf _]]] | [-> _]];
            [contradiction | contradiction | reflexivity].
      + split; [discriminate|].
        intros [[_ [[_ Hz] | [Hinf _]]] | (_ & _ & _ & Hov')];
          [contradiction | contradiction | discriminate]. }
  destruct (state vine) eqn:Hs.
  - apply Hhealthy; auto.
  - rewrite update_agent_latent by auto. cbn zeta.
    split; [discriminate|]. unfold healthy.
    intros [[_ [[[H | H] _] | [H _]]] | (_ & [H | H] & _)]; discriminate.
  - rewrite update_agent_infected by auto. cbn zeta.
    rewrite manual_removal_eq. unfold healthy.
    destruct (Qle_bool _ _) eqn:Hrec.
    + split; [discriminate|].
      intros [[_ [[[H | H] _] | (_ & H & _)]] | (_ & [H | H] & _)];
        discriminate.
    + destruct (Z.ltb_spec 0 generation) as [Hpos | Hneg].
      * destruct (Z.eqb_spec (removal_threshold cfg) 0) as [Hz | Hnz].
        -- split.
           ++ intros [= <-]. left. auto 6.
           ++ intros [[-> _] | (_ & [H | H] & _)];
                [reflexivity | discriminate | discriminate].
        -- split; [discriminate|].
           intros [[_ [[[H | H] _] | (_ & _ & _ & H)]]
                  | (_ & [H | H] & _)];
             [discriminate | discriminate | contradiction
              | discriminate | discriminate].
      * split; [discriminate|].
        intros [[_ [[[H | H] _] | (_ & _ & H & _)]] | (_ & [H | H] & _)];
          [discriminate | discriminate | lia | discriminate | discriminate].
  - apply Hhealthy; auto.
Qed.

Lemma update_agent_raises_witness :
  (healthy (state zero_offset_vine) /\
   default_infectivity default_settings * infected_count []
   + infectivity_offset zero_offset_vine = 0 /\
   update_agent default_settings 0 zero_offset_vine [] lone_vine_draws
   = Raise ZeroDivisionError) /\
  (healthy (state negative_offset_vine) /\
   default_infectivity huge_infectivity_settings
   * infected_count [default_vine INFECTED 0]
   + infectivity_offset negative_offset_vine <> 0 /\
   update_agent huge_infectivity_settings 0 negative_offset_vine
     [default_vine INFECTED 0] lone_vine_draws
   = Raise OverflowError).
Proof.
  split.
  - assert (healthy (state zero_offset_vine)) as Hh by (left; reflexivity).
    assert (default_infectivity default_settings * infected_count []
            + infectivity_offset zero_offset_vine = 0) as Hz by reflexivity.
    split; [exact Hh|]. split; [exact Hz|].
    apply (update_agent_raises default_settings 0 zero_offset_vine []
             lone_vine_draws ZeroDivisionError).
    left. split; [reflexivity|]. left. split; assumption.
  - assert (healthy (state negative_offset_vine)) as Hh
      by (left; reflexivity).
    assert (default_infectivity huge_infectivity_settings
            * infected_count [default_vine INFECTED 0]
            + infectivity_offset negative_offset_vine <> 0) as Hnz
      by discriminate.
    split; [exact Hh|]. split; [exact Hnz|].
    apply (update_agent_raises huge_infectivity_settings 0
             negative_offset_vine [default_vine INFECTED 0] lone_vine_draws
             OverflowError).
    right. split; [reflexivity|]. split; [exact Hh|].
    split; [exact Hnz|]. vm_compute. reflexivity.
Defined.

(** ** Degenerate intercropping patterns *)

(** X14. The intercropping pattern at its edges.  With a period
    [distance + row_count] of 0 the remainder cannot be taken and setup of
    a non-empty vineyard raises [ZeroDivisionError].  With a positive
    distance, no resistant row ([row_count <= 0]) and a non-zero period every
    vine is of the default cultivar; with distance 0 and a positive row
    count every vine is of the resistant cultivar. *)
Theorem intercropping_degenerate cfg rnd :
  (intercropping_distance cfg + intercropping_row_count cfg = 0 ->
   0 < p_size cfg ->
   sim_setup cfg rnd = Raise ZeroDivisionError) /\
  (0 < intercropping_distance cfg -> intercropping_row_count cfg <= 0 ->
   intercropping_distance cfg + intercropping_row_count cfg <> 0 ->
   forall w i vine,
     sim_setup cfg rnd = Ok w -> agents w !! i = Some vine ->
     initial_state vine = SUSCEPTIBLE /\
     infectivity_offset vine = default_infectivity_offset cfg) /\
  (intercropping_distance cfg = 0 -> 0 < intercropping_row_count cfg ->
   forall w i vine,
     sim_setup cfg rnd = Ok w -> agents w !! i = Some vine ->
     initial_state vine = RECOVERED /\
     infectivity_offset vine = resistant_infectivity_offset cfg).
Proof.
  split; [|split].
  - intros Hzero Hsize.
    unfold sim_setup, setup. cbn zeta.
    rewrite (proj2 (Z.leb_gt _ _) Hsize).
    unfold set_up_agent_variable_attributes, bind.
    destruct (Z.to_nat (p_size cfg ^ 2)) as [|m] eqn:Hn; [nia|].
    change (seq 0 (S m)) with (0%nat :: seq 1 m).
    cbn [set_up_loop]. unfold bind.
    rewrite is_intercropped_resistant_cultivar_eq. cbn zeta.
    rewrite Hzero. reflexivity.
  - intros HD HR Hperiod w i vine Hs Hi.
    apply sim_setup_lookup in Hs as (_ & _ & _ & _ & _ & sel & _ & Hall).
    destruct (Hall i vine Hi) as (vine0 & -> & ->).
    set (x := fst (grid_position (p_size cfg) i)).
    set (period := intercropping_distance cfg + intercropping_row_count cfg).
    assert ((intercropping_distance cfg <=? x mod period) = false) as ->.
    { apply Z.leb_gt. subst period.
      destruct (Z.lt_trichotomy
                  (intercropping_distance cfg + intercropping_row_count cfg)
                  0) as [Hneg | [Hz | Hpos]].
      - pose proof (Z.mod_neg_bound x _ Hneg). lia.
      - contradiction.
      - pose proof (Z.mod_pos_bound x _ Hpos). lia. }
    destruct (bool_decide _); split; reflexivity.
  - intros HD HR w i vine Hs Hi.
    apply sim_setup_lookup in Hs as (_ & _ & _ & _ & _ & sel & _ & Hall).
    destruct (Hall i vine Hi) as (vine0 & -> & ->).
    rewrite HD, Z.add_0_l.
    assert ((0 <=? fst (grid_position (p_size cfg) i)
                   mod intercropping_row_count cfg) = true) as ->.
    { apply Z.leb_le.
      pose proof (Z.mod_pos_bound (fst (grid_position (p_size cfg) i)) _ HR).
      lia. }
    destruct (bool_decide _); split; reflexivity.
Qed.

Lemma intercropping_degenerate_witness :
  intercropping_distance zero_period_settings
  + intercropping_row_count zero_period_settings = 0 /\
  0 < p_size zero_period_settings /\
  sim_setup zero_period_settings lone_vine_draws = Raise ZeroDivisionError /\
  0 < intercropping_distance no_resistant_row_settings /\
  intercropping_row_count no_resistant_row_settings <= 0 /\
  sim_setup no_resistant_row_settings lone_vine_draws
  = Ok no_resistant_row_world /\
  (forall i vine, agents no_resistant_row_world !! i = Some vine ->
     initial_state vine = SUSCEPTIBLE) /\
  intercropping_distance no_default_row_settings = 0 /\
  0 < intercropping_row_count no_default_row_settings /\
  sim_setup no_default_row_settings lone_vine_draws
  = Ok no_default_row_world /\
  (forall i vine, agents no_default_row_world !! i = Some vine ->
     initial_state vine = RECOVERED).
Proof.
  assert (sim_setup no_resistant_row_settings lone_vine_draws
          = Ok no_resistant_row_world) as Hs1 by (vm_compute; reflexivity).
  assert (sim_setup no_default_row_settings lone_vine_draws
          = Ok no_default_row_world) as Hs2 by (vm_compute; reflexivity).
  split; [reflexivity|]. split; [reflexivity|].
  split.
  { apply (intercropping_degenerate zero_period_settings lone_vine_draws);
      reflexivity. }
  split; [reflexivity|]. split; [discriminate|]. split; [exact Hs1|].
  split.
  { intros i vine Hi.
    apply (proj1 (proj2 (intercropping_degenerate no_resistant_row_settings
                           lone_vine_draws)))
      with (w := no_resistant_row_world) (i := i);
      [reflexivity | discriminate | discriminate | exact Hs1 | exact Hi]. }
  split; [reflexivity|]. split; [reflexivity|]. split; [exact Hs2|].
  intros i vine Hi.
  apply (proj2 (proj2 (intercropping_degenerate no_default_row_settings
                         lone_vine_draws)))
    with (w := no_default_row_world) (i := i);
    [reflexivity | reflexivity | exact Hs2 | exact Hi].
Defined.

(** ** The commit phase *)

(** X11. Committing is idempotent: once the commit loop has set every
    [state] to its [state_next], running it again on the result changes
    nothing. *)
Theorem commit_idempotent staged committed :
  commit_loop staged = Ok committed ->
  commit_loop committed = Ok committed.
Proof.
  revert committed. induction staged as [|v staged IH]; intros committed; cbn.
  - intros [= <-]. reflexivity.
  - unfold commit. destruct (state_next v) as [s|] eqn:Hs; [|discriminate].
    destruct (commit_loop staged) as [rest|e]; [|discriminate].
    intros [= <-]. cbn. unfold commit. cbn. rewrite Hs.
    rewrite (IH rest eq_refl). unfold set_state; cbn. reflexivity.
Qed.

Lemma commit_idempotent_witness :
  commit_loop [set_state_next INFECTED (default_vine LATENT 8)]
  = Ok [mkAgent INFECTED (Some INFECTED) SUSCEPTIBLE 10 8 (8 # 1)] /\
  commit_loop [mkAgent INFECTED (Some INFECTED) SUSCEPTIBLE 10 8 (8 # 1)]
  = Ok [mkAgent INFECTED (Some INFECTED) SUSCEPTIBLE 10 8 (8 # 1)].
Proof.
  assert (commit_loop [set_state_next INFECTED (default_vine LATENT 8)]
          = Ok [mkAgent INFECTED (Some INFECTED) SUSCEPTIBLE 10 8 (8 # 1)])
    as H by reflexivity.
  split; [exact H|]. exact (commit_idempotent _ _ H).
Defined.

Lemma commit_loop_raise_intro vines :
  (exists i vine, vines !! i = Some vine /\ state_next vine = None) ->
  commit_loop vines = Raise AttributeError.
Proof.
  induction vines as [|v vines IH]; intros (i & vine & Hi & Hnone).
  - rewrite lookup_nil in Hi. discriminate Hi.
  - cbn. unfold commit. destruct (state_next v) as [s|] eqn:Hs;
      [|reflexivity].
    destruct i as [|i]; cbn in Hi.
    + injection Hi as <-. congruence.
    + rewrite IH by eauto. reflexivity.
Qed.

Lemma update_agent_raise_kind cfg generation vine nb r e :
  update_agent cfg generation vine nb r = Raise e ->
  e = ZeroDivisionError \/ e = OverflowError.
Proof.
  destruct (state vine) eqn:Hs.
  - rewrite update_agent_healthy, s_2_l_eq by auto. cbn zeta.
    destruct (_ =? 0); [intros [= <-]; auto|].
    destruct (overflows _); [intros [= <-]; auto | discriminate].
  - rewrite update_agent_latent by auto. discriminate.
  - rewrite update_agent_infected by auto. cbn zeta.
    rewrite manual_removal_eq.
    destruct (Qle_bool _ _); [discriminate|].
    destruct (0 <? generation); [|discriminate].
    destruct (removal_threshold cfg =? 0);
      [intros [= <-]; auto | discriminate].
  - rewrite update_agent_healthy, s_2_l_eq by auto. cbn zeta.
    destruct (_ =? 0); [intros [= <-]; auto|].
    destruct (overflows _); [intros [= <-]; auto | discriminate].
Qed.

Lemma snapshot_loop_raise_inv cfg generation snap ids :
  Forall (fun i => (i < length snap)%nat) ids ->
  forall cur r e,
    snapshot_loop cfg generation snap ids cur r = Raise e ->
    exists i vine ri,
      snap !! i = Some vine /\
      update_agent cfg generation vine (neighbors (p_size cfg) snap i) ri
      = Raise e.
Proof.
  intros Hids. induction Hids as [|i ids Hi _ IH]; intros cur r e;
    cbn; [discriminate|].
  apply lookup_lt_is_Some in Hi as [vine Hv]. rewrite Hv. unfold bind.
  destruct (update_agent _ _ _ _ _) as [[vine' r'] | e'] eqn:Hu.
  - apply IH.
  - intros [= <-]. eauto.
Qed.

(** A step raises only what [update_agent] raised on one of its vines: the
    commit loop finds a [state_next] on every vine the first loop went
    through. *)
Lemma step_raise_inv cfg w e :
  step cfg w = Raise e ->
  exists i vine ri,
    agents w !! i = Some vine /\
    update_agent cfg (model_generation w) vine
      (neighbors (p_size cfg) (agents w) i) ri = Raise e.
Proof.
  unfold step. rewrite compute_loop_eq_snapshot.
  destruct (snapshot_loop _ _ _ _ _ _) as [[staged rnd] | e'] eqn:Hloop.
  - destruct (commit_loop_total staged) as [committed ->]; [|discriminate].
    apply snapshot_loop_lookup in Hloop as (Hlen & _ & Hall);
      [|apply NoDup_seq].
    apply Forall_lookup. intros i v Hv.
    destruct (Hall i) as [Hin _].
    destruct Hin as (v0 & ri & v' & ri' & _ & _ & Hu & Hres).
    { apply elem_of_seq. split; [lia|]. cbn. rewrite <- Hlen.
      eapply lookup_lt_Some, Hv. }
    { rewrite <- Hlen. eapply lookup_lt_Some, Hv. }
    rewrite Hv in Hres. injection Hres as <-.
    eapply update_agent_state, Hu.
  - intros [= <-]. eapply snapshot_loop_raise_inv; [|exact Hloop].
    apply Forall_forall. intros i Hi. apply elem_of_seq in Hi. lia.
Qed.

(** X15. [state_next] exists only once the first loop of [step] has run.
    The initialiser and the seeding do not create it, so no vine of a
    fresh setup has one, and the commit loop [vine.state = vine.state_next]
    run on a fresh setup raises [AttributeError].  Inside [step] the first
    loop stages a [state_next] on every vine before the commit loop reads
    it: a step taken from any world, also one whose vines have no
    [state_next], never raises [AttributeError]; what it raises is the
    [ZeroDivisionError] or [OverflowError] that [update_agent] raised on one
    of its vines. *)
Theorem state_next_staged_before_commit cfg :
  (forall rnd w,
     sim_setup cfg rnd = Ok w ->
     (forall i vine, agents w !! i = Some vine -> state_next vine = None) /\
     commit_loop (agents w) = Raise AttributeError) /\
  (forall w e,
     sim_step cfg w = Raise e ->
     (e = ZeroDivisionError \/ e = OverflowError) /\
     exists i vine ri,
       agents w !! i = Some vine /\
       update_agent cfg (model_generation w) vine
         (neighbors (p_size cfg) (agents w) i) ri = Raise e).
Proof.
  split.
  - intros rnd w Hs.
    assert (forall i vine, agents w !! i = Some vine ->
              state_next vine = None) as Hnone.
    { intros i vine Hi.
      apply sim_setup_lookup in Hs as (_ & _ & _ & _ & _ & sel & _ & Hall).
      destruct (Hall i vine Hi) as (vine0 & -> & ->).
      destruct (bool_decide _); reflexivity. }
    split; [exact Hnone|].
    assert (0 < p_size cfg) as Hsize.
    { unfold sim_setup in Hs.
      destruct (setup cfg rnd) as [[vines r'] | e] eqn:Hsetup;
        [|discriminate].
      eapply setup_size, Hsetup. }
    apply sim_setup_lookup in Hs as (_ & _ & _ & _ & Hlen & _).
    destruct (lookup_lt_is_Some_2 (agents w) 0) as [vine Hv]; [nia|].
    apply commit_loop_raise_intro. exists 0%nat, vine. eauto.
  - intros w e Hs. unfold sim_step in Hs.
    destruct (step cfg _) as [w' | e'] eqn:Hstep; [discriminate|].
    injection Hs as ->.
    apply step_raise_inv in Hstep as (i & vine & ri & Hv & Hu).
    cbn in Hv, Hu. split; [eapply update_agent_raise_kind, Hu|].
    exists i, vine, ri. auto.
Qed.

Lemma state_next_staged_before_commit_witness :
  sim_setup lone_vine_settings lone_vine_draws = Ok lone_vine_world /\
  agents lone_vine_world = [default_vine LATENT 0] /\
  commit_loop (agents lone_vine_world) = Raise AttributeError /\
  sim_step lone_vine_settings zero_offset_world = Raise ZeroDivisionError /\
  exists i vine ri,
    agents zero_offset_world !! i = Some vine /\
    update_agent lone_vine_settings (model_generation zero_offset_world) vine
      (neighbors (p_size lone_vine_settings) (agents zero_offset_world) i) ri
    = Raise ZeroDivisionError.
Proof.
  assert (sim_setup lone_vine_settings lone_vine_draws = Ok lone_vine_world)
    as Hsetup by (vm_compute; reflexivity).
  assert (sim_step lone_vine_settings zero_offset_world
          = Raise ZeroDivisionError) as Hstep by (vm_compute; reflexivity).
  split; [exact Hsetup|]. split; [vm_compute; reflexivity|].
  split.
  { exact (proj2 (proj1 (state_next_staged_before_commit lone_vine_settings)
                    lone_vine_draws lone_vine_world Hsetup)). }
  split; [exact Hstep|].
  exact (proj2 (proj2 (state_next_staged_before_commit lone_vine_settings)
                  zero_offset_world ZeroDivisionError Hstep)).
Defined.

(** ** Length of the latent period *)

Lemma sim_step_latent cfg w w' i vine :
  sim_step cfg w = Ok w' -> agents w !! i = Some vine ->
  state vine = LATENT ->
  agents w' !! i =
    Some (mkAgent
            (if Qle_bool (latency_duration vine)
                  (inject_Z (latency_counter vine + 1))
             then INFECTED else LATENT)
            (Some (if Qle_bool (latency_duration vine)
                        (inject_Z (latency_counter vine + 1))
                   then INFECTED else LATENT))
            (initial_state vine) (infectivity_offset vine)
            (latency_counter vine + 1) (latency_duration vine)).
Proof.
  intros Hs Hi Hl.
  apply sim_step_lookup in Hs as (_ & _ & _ & _ & _ & Hall).
  destruct (Hall i vine Hi) as (ri & v' & ri' & s & _ & Hu & Hs' & Hi').
  rewrite update_agent_latent in Hu by exact Hl. cbn zeta in Hu.
  injection Hu as <- <-. cbn in Hs'. injection Hs' as <-.
  rewrite Hi'. unfold l_2_i, set_state, set_state_next, set_latency_counter;
    cbn. reflexivity.
Qed.

(** X12. A Latent vine stays Latent, its counter growing by one per step, for
    as long as the counter stays below its latency duration, whatever its
    neighbours and the draws are; and it turns Infected in the first step
    that brings the counter up to the duration.  A vine seeded with duration
    [d > 0] is thus Latent for exactly [ceil d] generations. *)
Theorem latent_period cfg n w w' i vine :
  run_loop cfg n w = Ok w' ->
  t w' = t w + Z.of_nat n ->
  agents w !! i = Some vine ->
  state vine = LATENT ->
  (inject_Z (latency_counter vine + Z.of_nat n) < latency_duration vine)%Q ->
  exists vine',
    agents w' !! i = Some vine' /\
    state vine' = LATENT /\
    latency_counter vine' = latency_counter vine + Z.of_nat n /\
    latency_duration vine' = latency_duration vine /\
    forall w'',
      sim_step cfg w' = Ok w'' ->
      (latency_duration vine
       <= inject_Z (latency_counter vine + Z.of_nat n + 1))%Q ->
      exists vine'',
        agents w'' !! i = Some vine'' /\ state vine'' = INFECTED.
Proof.
  revert w vine. induction n as [|n IH]; intros w vine; cbn [run_loop].
  - intros [= <-] _ Hi Hl Hlt. exists vine.
    rewrite Z.add_0_r. repeat (split; [assumption || reflexivity|]).
    intros w'' Hs Hle. rewrite (sim_step_latent _ _ _ _ _ Hs Hi Hl).
    apply Qle_bool_iff in Hle. rewrite Hle. eexists. split; reflexivity.
  - destruct (running w) eqn:Hrun; [|intros [= <-] Ht; lia].
    destruct (sim_step cfg w) as [w1 | e] eqn:Hs; [|discriminate].
    intros Hloop Ht Hi Hl Hlt.
    pose proof (sim_step_latent _ _ _ _ _ Hs Hi Hl) as Hi1.
    assert (Qle_bool (latency_duration vine)
              (inject_Z (latency_counter vine + 1)) = false) as Hno.
    { destruct (Qle_bool _ _) eqn:Hb; [|reflexivity].
      apply Qle_bool_iff in Hb. destruct (Qlt_irrefl (latency_duration vine)).
      eapply Qle_lt_trans; [exact Hb|].
      eapply Qle_lt_trans; [|exact Hlt].
      rewrite <- Zle_Qle. lia. }
    rewrite Hno in Hi1.
    apply sim_step_lookup in Hs as (Ht1 & _).
    destruct (IH _ _ Hloop ltac:(lia) Hi1 eq_refl)
      as (vine' & Hv' & Hl' & Hc' & Hd' & Hnext).
    { cbn. replace (latency_counter vine + 1 + Z.of_nat n)
        with (latency_counter vine + Z.of_nat (S n)) by lia. exact Hlt. }
    cbn in Hc', Hd', Hnext. exists vine'.
    split; [exact Hv'|]. split; [exact Hl'|]. split; [lia|].
    split; [exact Hd'|].
    intros w'' Hs'' Hle. apply (Hnext w'' Hs'').
    replace (latency_counter vine + 1 + Z.of_nat n + 1)
      with (latency_counter vine + Z.of_nat (S n) + 1) by lia. exact Hle.
Qed.

Lemma latent_period_witness :
  run_loop lone_vine_settings 7 lone_vine_world = Ok lone_vine_world_7 /\
  t lone_vine_world_7 = t lone_vine_world + Z.of_nat 7 /\
  agents lone_vine_world !! 0%nat = Some (default_vine LATENT 0) /\
  (inject_Z (0 + Z.of_nat 7) < 8 # 1)%Q /\
  exists vine',
    agents lone_vine_world_7 !! 0%nat = Some vine' /\
    state vine' = LATENT /\ latency_counter vine' = 7.
Proof.
  assert (run_loop lone_vine_settings 7 lone_vine_world
          = Ok lone_vine_world_7) as Hrun by (vm_compute; reflexivity).
  assert (t lone_vine_world_7 = t lone_vine_world + Z.of_nat 7) as Ht
    by (vm_compute; reflexivity).
  assert (agents lone_vine_world !! 0%nat = Some (default_vine LATENT 0))
    as Hvine by (vm_compute; reflexivity).
  assert (inject_Z (0 + Z.of_nat 7) < 8 # 1)%Q as Hlt by reflexivity.
  repeat (split; [assumption|]).
  destruct (latent_period _ _ _ _ _ _ Hrun Ht Hvine eq_refl Hlt)
    as (vine' & Hv & Hl & Hc & _).
  exists vine'. split; [exact Hv|]. split; [exact Hl | exact Hc].
Defined.

(** ** Use of the random generators *)

Lemma update_agent_calls cfg generation vine nb r vine' r' :
  update_agent cfg generation vine nb r = Ok (vine', r') ->
  uniform_calls r'
  = (uniform_calls r + draws_needed [vine])%nat /\
  normal_calls r' = normal_calls r /\ choice_calls r' = choice_calls r.
Proof.
  intros Hu. unfold draws_needed; cbn.
  apply update_agent_outcome in Hu
    as [([Hh | Hh] & fired & _ & ->) | [(Hl & _ & ->) | [(Hinf & _ & _ & ->)
       | (Hinf & _ & _ & ->)]]];
    rewrite ?Hh, ?Hl, ?Hinf; cbn; repeat split; lia.
Qed.

Lemma draws_needed_cons vine vines :
  draws_needed (vine :: vines)
  = (draws_needed [vine] + draws_needed vines)%nat.
Proof.
  unfold draws_needed; cbn.
  destruct (negb _); reflexivity.
Qed.

Lemma snapshot_loop_draws cfg generation snap m :
  forall k cur r res r',
    snapshot_loop cfg generation snap (seq k m) cur r = Ok (res, r') ->
    uniform_calls r'
    = (uniform_calls r + draws_needed (take m (drop k snap)))%nat /\
    normal_calls r' = normal_calls r /\ choice_calls r' = choice_calls r.
Proof.
  induction m as [|m IH]; intros k cur r res r'; cbn [seq snapshot_loop].
  - intros [= <- <-]. rewrite take_0. unfold draws_needed. cbn.
    repeat split; lia.
  - destruct (snap !! k) as [vine|] eqn:Hk; [|discriminate].
    unfold bind.
    destruct (update_agent _ _ _ _ _) as [[vine' r1] | e] eqn:Hu;
      [|discriminate].
    intros Hloop. apply IH in Hloop as (Hu' & Hn' & Hc').
    apply update_agent_calls in Hu as (Hu1 & Hn1 & Hc1).
    rewrite (drop_S _ _ _ Hk), firstn_cons, draws_needed_cons.
    repeat split; lia.
Qed.

(** X9. One step calls [random.random()] exactly once for every vine that is
    not Latent at the start of the step (once in [s_2_l] for a healthy vine,
    once in [self_recovery] for an Infected one), and draws nothing from the
    Normal generator or from the sampling generator. *)
Theorem step_draws cfg w w' :
  sim_step cfg w = Ok w' ->
  uniform_calls (random w')
  = (uniform_calls (random w) + draws_needed (agents w))%nat /\
  normal_calls (random w') = normal_calls (random w) /\
  choice_calls (random w') = choice_calls (random w).
Proof.
  unfold sim_step, step; cbn. rewrite compute_loop_eq_snapshot.
  destruct (snapshot_loop _ _ _ _ _ _) as [[staged rnd] | e] eqn:Hloop;
    [|discriminate].
  destruct (commit_loop staged) as [committed | e]; [|discriminate].
  intros [= <-]; cbn.
  apply snapshot_loop_draws in Hloop.
  rewrite drop_0, take_ge in Hloop by lia. exact Hloop.
Qed.

Lemma step_draws_witness :
  sim_step lone_vine_settings lone_vine_world_10 = Ok lone_vine_world_11 /\
  draws_needed (agents lone_vine_world_7) = 0%nat /\
  draws_needed (agents lone_vine_world_10) = 1%nat /\
  uniform_calls (random lone_vine_world_11)
  = (uniform_calls (random lone_vine_world_10) + 1)%nat.
Proof.
  assert (sim_step lone_vine_settings lone_vine_world_10
          = Ok lone_vine_world_11) as Hstep by (vm_compute; reflexivity).
  split; [exact Hstep|]. split; [vm_compute; reflexivity|].
  split; [vm_compute; reflexivity|].
  destruct (step_draws _ _ _ Hstep) as [Hu _]. exact Hu.
Defined.

(** ** Compartments after setup *)

Lemma count_state_alter_latent (vines : list Agent) :
  forall j vine,
    vines !! j = Some vine -> state vine <> LATENT ->
    count_state LATENT (alter (set_state LATENT) j vines)
    = count_state LATENT vines + 1.
Proof.
  unfold count_state.
  induction vines as [|v vines IH]; intros j vine Hj Hst.
  - rewrite lookup_nil in Hj. discriminate Hj.
  - destruct j as [|j]; cbn in Hj |- *.
    + injection Hj as ->.
      destruct (state_eqb (state vine) LATENT) eqn:Hv.
      * apply state_eqb_eq in Hv. contradiction.
      * cbn. lia.
    + specialize (IH j vine Hj Hst).
      destruct (state_eqb (state v) LATENT); cbn [length]; lia.
Qed.

Lemma seed_count initial_infected :
  forall vines : list Agent,
    NoDup initial_infected ->
    (forall j, j ∈ initial_infected ->
       exists vine, vines !! j = Some vine /\ state vine <> LATENT) ->
    count_state LATENT (seed initial_infected vines)
    = count_state LATENT vines + Z.of_nat (length initial_infected).
Proof.
  unfold seed.
  induction initial_infected as [|j sel IH]; intros vines Hnd Hin; cbn.
  - lia.
  - apply NoDup_cons in Hnd as [Hj Hnd].
    destruct (Hin j) as (vine & Hv & Hst); [left|].
    rewrite IH.
    + rewrite (count_state_alter_latent _ _ _ Hv Hst). lia.
    + exact Hnd.
    + intros j' Hj'. rewrite list_lookup_alter_ne.
      * apply Hin. right. exact Hj'.
      * intros ->. contradiction.
Qed.

(** X10. Right after setup exactly [initial_infection_count] vines are
    Latent and none is Infected, whatever the cultivar of the sampled
    vines. *)
Theorem setup_counts cfg rnd w :
  sim_setup cfg rnd = Ok w ->
  count_state LATENT (agents w) = p_initial_infection_count cfg /\
  count_state INFECTED (agents w) = 0.
Proof.
  intros Hs. split.
  - unfold sim_setup in Hs.
    destruct (setup cfg rnd) as [[vines r'] | e] eqn:Hsetup; [|discriminate].
    injection Hs as <-. cbn.
    apply setup_inv in Hsetup as (vines0 & r0 & sel & Hinit & Hsel & ->).
    apply set_up_loop_lookup in Hinit as (Hlen & _ & _ & Hall).
    apply AgentList_random_spec in Hsel as (_ & Hk & Hin & Hnd & _).
    rewrite length_seq in Hlen.
    assert (forall j vine, vines0 !! j = Some vine -> state vine <> LATENT)
      as Hstates.
    { intros j vine Hj.
      destruct (Hall j j) as [_ Hv].
      { apply lookup_seq. split; [reflexivity|]. rewrite <- Hlen.
        eapply lookup_lt_Some, Hj. }
      rewrite Hj in Hv. injection Hv as ->.
      unfold new_agent. destruct (_ <=? _); discriminate. }
    rewrite seed_count.
    + rewrite (count_state_zero LATENT vines0) by exact Hstates. lia.
    + apply Hnd, NoDup_seq.
    + intros j Hj. apply Hin, elem_of_seq in Hj.
      destruct (lookup_lt_is_Some_2 vines0 j) as [vine Hv]; [lia|].
      exists vine. split; [exact Hv|]. eapply Hstates, Hv.
  - apply count_state_zero. intros i vine Hi.
    apply sim_setup_lookup in Hs as (_ & _ & _ & _ & _ & sel & _ & Hall).
    destruct (Hall i vine Hi) as (vine0 & -> & ->).
    unfold new_agent. destruct (bool_decide _), (_ <=? _); discriminate.
Qed.

Lemma setup_counts_witness :
  sim_setup sample_grid_settings lone_vine_draws = Ok sample_grid_world /\
  count_state LATENT (agents sample_grid_world) = 2.
Proof.
  assert (sim_setup sample_grid_settings lone_vine_draws
          = Ok sample_grid_world) as Hs by (vm_compute; reflexivity).
  split; [exact Hs|].
  destruct (setup_counts _ _ _ Hs) as [Hl _]. exact Hl.
Defined.

(** ** Between two removals *)

(** X16. At a generation that is not a removal generation the only way out
    of the Infected compartment is self-recovery: an Infected vine is either
    still Infected after the step, or Recovered with [initial_state]
    Recovered and the resistant offset.  It never returns to Susceptible. *)
Theorem infected_between_removals cfg w w' i vine :
  sim_step cfg w = Ok w' ->
  removal_threshold cfg <> 0 ->
  ~ (0 < model_generation w /\ (removal_threshold cfg | model_generation w)) ->
  agents w !! i = Some vine -> state vine = INFECTED ->
  exists vine',
    agents w' !! i = Some vine' /\
    (state vine' = INFECTED
     \/ (state vine' = RECOVERED /\ initial_state vine' = RECOVERED /\
         infectivity_offset vine' = resistant_infectivity_offset cfg)).
Proof.
  intros Hs Hthr Hno Hi Hinf.
  assert ((0 <? model_generation w)
          && (model_generation w mod removal_threshold cfg =? 0) = false)
    as Hfire.
  { apply andb_false_iff.
    destruct (Z.ltb_spec 0 (model_generation w)) as [Hpos | Hneg];
      [right | left; reflexivity].
    apply Z.eqb_neq. intros Hmod. apply Hno. split; [exact Hpos|].
    apply Z.mod_divide; assumption. }
  apply sim_step_lookup in Hs as (_ & _ & _ & _ & _ & Hall).
  destruct (Hall i vine Hi) as (ri & v' & ri' & s & _ & Hu & Hs' & Hi').
  exists (set_state s v'). split; [exact Hi'|]. cbn.
  apply update_agent_outcome in Hu
    as [([Hh | Hh] & _) | [(Hl & _) | [(_ & _ & -> & _)
       | (_ & _ & -> & _)]]]; try congruence;
    cbn in Hs'; injection Hs' as <-.
  - right. auto.
  - rewrite Hfire. left. reflexivity.
Qed.

Lemma infected_between_removals_witness :
  sim_step small_grid_settings outbreak_world_1 = Ok outbreak_world_2 /\
  removal_threshold small_grid_settings <> 0 /\
  model_generation outbreak_world_1 = 1 /\
  agents outbreak_world_1 !! 0%nat
  = Some (mkAgent INFECTED (Some INFECTED) SUSCEPTIBLE 10 1 (2 # 2)) /\
  exists vine',
    agents outbreak_world_2 !! 0%nat = Some vine' /\
    (state vine' = INFECTED \/ state vine' = RECOVERED).
Proof.
  assert (sim_step small_grid_settings outbreak_world_1
          = Ok outbreak_world_2) as Hstep by (vm_compute; reflexivity).
  assert (removal_threshold small_grid_settings <> 0) as Hthr
    by discriminate.
  assert (agents outbreak_world_1 !! 0%nat
          = Some (mkAgent INFECTED (Some INFECTED) SUSCEPTIBLE 10 1 (2 # 2)))
    as Hvine by (vm_compute; reflexivity).
  split; [exact Hstep|]. split; [exact Hthr|].
  split; [vm_compute; reflexivity|]. split; [exact Hvine|].
  assert (~ (0 < model_generation outbreak_world_1 /\
             (removal_threshold small_grid_settings
              | model_generation outbreak_world_1))) as Hno.
  { intros [_ [k Hk]].
    change (model_generation outbreak_world_1) with 1 in Hk.
    change (removal_threshold small_grid_settings) with 10 in Hk. lia. }
  destruct (infected_between_removals small_grid_settings outbreak_world_1
              outbreak_world_2 0%nat _ Hstep Hthr Hno Hvine eq_refl)
    as (vine' & Hv & Hst).
  exists vine'. split; [exact Hv|]. tauto.
Defined.

(** ** What each branch of the state machine reads *)

(** X17. Only a healthy vine looks at its neighbours, only an Infected vine
    looks at the generation counter, and a Latent vine looks at neither and
    takes nothing from the random generators: its update is a function of
    the vine alone. *)
Theorem update_agent_reads cfg generation vine nb r :
  (state vine <> INFECTED ->
   forall generation',
     update_agent cfg generation' vine nb r
     = update_agent cfg generation vine nb r) /\
  (~ healthy (state vine) ->
   forall nb',
     update_agent cfg generation vine nb' r
     = update_agent cfg generation vine nb r) /\
  (state vine = LATENT ->
   forall cfg' generation' nb' r',
     exists vine',
       update_agent cfg generation vine nb r = Ok (vine', r) /\
       update_agent cfg' generation' vine nb' r' = Ok (vine', r')).
Proof.
  unfold healthy. split; [|split].
  - intros Hs generation'. destruct (state vine) eqn:Hst.
    + rewrite !update_agent_healthy by auto. reflexivity.
    + rewrite !update_agent_latent by auto. reflexivity.
    + contradiction.
    + rewrite !update_agent_healthy by auto. reflexivity.
  - intros Hs nb'. destruct (state vine) eqn:Hst.
    + destruct Hs. auto.
    + rewrite !update_agent_latent by auto. reflexivity.
    + rewrite !update_agent_infected by auto. cbn zeta.
      rewrite !manual_removal_eq. reflexivity.
    + destruct Hs. auto.
  - intros Hs cfg' generation' nb' r'.
    rewrite !update_agent_latent by exact Hs. cbn zeta.
    eexists. split; reflexivity.
Qed.

Lemma update_agent_reads_witness :
  state (default_vine LATENT 3) <> INFECTED /\
  ~ healthy (state (default_vine LATENT 3)) /\
  update_agent default_settings 10 (default_vine LATENT 3)
    [default_vine INFECTED 0] lone_vine_draws
  = update_agent default_settings 0 (default_vine LATENT 3) []
      lone_vine_draws.
Proof.
  assert (state (default_vine LATENT 3) <> INFECTED) as H1 by discriminate.
  assert (~ healthy (state (default_vine LATENT 3))) as H2
    by (intros [H | H]; discriminate H).
  split; [exact H1|]. split; [exact H2|].
  destruct (update_agent_reads default_settings 0 (default_vine LATENT 3)
              [] lone_vine_draws) as (_ & Hnb & _).
  destruct (update_agent_reads default_settings 0 (default_vine LATENT 3)
              [default_vine INFECTED 0] lone_vine_draws) as (Hgen & _).
  etransitivity; [exact (Hgen H1 10) | exact (Hnb H2 _)].
Defined.

(** ** Locality of infection *)

(** X18. Infection comes from the neighbourhood.  In a step none of whose
    [random.random()] calls returns 0.0, a healthy vine that turns Latent had
    at least one Infected neighbour at the start of the step. *)
Theorem infection_needs_infected_neighbor cfg w w' i vine vine' :
  sim_step cfg w = Ok w' ->
  (forall k, (uniform53 (random w) k mod two53)%N <> 0%N) ->
  agents w !! i = Some vine -> healthy (state vine) ->
  agents w' !! i = Some vine' -> state vine' = LATENT ->
  0 < infected_count (neighbors (p_size cfg) (agents w) i).
Proof.
  intros Hs Hdraw Hi Hh Hi' Hl.
  apply sim_step_lookup in Hs as (_ & _ & _ & _ & _ & Hall).
  destruct (Hall i vine Hi) as (ri & v' & ri' & s & Hri & Hu & Hs' & Hi2).
  rewrite Hi' in Hi2. injection Hi2 as ->. cbn in Hl. subst s.
  pose proof (infected_count_nonneg (neighbors (p_size cfg) (agents w) i))
    as Hc.
  destruct (Z.eq_dec (infected_count (neighbors (p_size cfg) (agents w) i)) 0)
    as [Hzero | Hpos]; [|lia].
  rewrite update_agent_healthy in Hu by exact Hh.
  assert (infectivity_offset vine <> 0) as Hoff.
  { intros Hoff. rewrite s_2_l_eq in Hu. cbn zeta in Hu.
    rewrite Hzero, Hoff in Hu. rewrite Z.mul_0_r in Hu. cbn in Hu.
    discriminate Hu. }
  rewrite s_2_l_no_infected_neighbor in Hu by assumption.
  rewrite Hri in Hu. rewrite (proj2 (N.eqb_neq _ _) (Hdraw _)) in Hu.
  injection Hu as <- _. cbn in Hs'. injection Hs' as Hs'.
  destruct Hh as [Hh | Hh]; congruence.
Qed.

Lemma infection_needs_infected_neighbor_witness :
  sim_step small_grid_settings outbreak_world_1 = Ok outbreak_world_2 /\
  (forall k, (uniform53 (random outbreak_world_1) k mod two53)%N <> 0%N) /\
  List.map state (agents outbreak_world_1)
  = [INFECTED; SUSCEPTIBLE; SUSCEPTIBLE; SUSCEPTIBLE] /\
  List.map state (agents outbreak_world_2)
  = [INFECTED; LATENT; LATENT; LATENT] /\
  0 < infected_count
        (neighbors (p_size small_grid_settings) (agents outbreak_world_1) 3).
Proof.
  assert (sim_step small_grid_settings outbreak_world_1
          = Ok outbreak_world_2) as Hstep by (vm_compute; reflexivity).
  assert (forall k, (uniform53 (random outbreak_world_1) k mod two53)%N
                    <> 0%N) as Hdraw
    by (intros k; vm_compute; discriminate).
  split; [exact Hstep|]. split; [exact Hdraw|].
  split; [vm_compute; reflexivity|]. split; [vm_compute; reflexivity|].
  apply (infection_needs_infected_neighbor small_grid_settings
           outbreak_world_1 outbreak_world_2 3
           (mkAgent SUSCEPTIBLE (Some SUSCEPTIBLE) SUSCEPTIBLE 10 0 (2 # 2))
           (mkAgent LATENT (Some LATENT) SUSCEPTIBLE 10 0 (2 # 2))
           Hstep Hdraw);
    [vm_compute; reflexivity | left; reflexivity | vm_compute; reflexivity
    | reflexivity].
Defined.
